(** * lfshook: a logrus hook routing entries to files or writers by level

    Shallow embedding of [lfshook.go] and the properties of its
    dispatch logic.  The hook talks to four collaborators that live
    outside the package: the logrus library (levels, entries,
    formatters), [io.Writer] values handed in by the client, the
    [os]/[filepath] file-system calls and the standard [log] package.
    Their behaviour is not fixed here: every call to one of them is
    answered by an environment [Env] and recorded, with its answer, in
    the trace of the world, so that each statement below holds for all
    behaviours of the collaborators. *)

From stdpp Require Import base option list strings gmap functions.
From Stdlib Require Import Strings.Byte.

Set Default Proof Using "Type".

(** ** Values of the collaborating packages *)

(** [logrus.Level] is a [uint32]; the hook only uses it as a map key. *)
Definition Level := N.

(** [[]byte] *)
Definition bytes := list byte.

(** A non-nil [error] value, identified by the text of [Error()].  The
    nil error is [None] in [option error]. *)
Definition error := string.

(** [logrus.Entry]: the hook reads [Level]; everything else is only
    handed to the formatter.  logrus calls a hook with the entry being
    logged, never with a nil pointer. *)
Record Entry := { entry_Level : Level; entry_Message : string }.

(** Modelled from the spec: the plain-text formatter of the logging
    library ([logrus.TextFormatter]) is declared outside this
    repository.  The package touches its color-styling flag
    [DisableColors] only; three more of its switches stand for the
    configuration the package leaves alone. *)
Record TextFormatter := {
  ForceColors : bool;
  DisableColors : bool;
  DisableTimestamp : bool;
  FullTimestamp : bool
}.

Definition set_DisableColors (b : bool) (t : TextFormatter) : TextFormatter :=
  {| ForceColors := ForceColors t; DisableColors := b;
     DisableTimestamp := DisableTimestamp t; FullTimestamp := FullTimestamp t |}.

(** Addresses of [TextFormatter] objects. *)
Definition loc := nat.

(** A value of interface type [logrus.Formatter]: the nil interface, a
    [*logrus.TextFormatter] (a pointer, possibly the nil pointer), or
    an object of any other implementing type. *)
Inductive Formatter :=
| nil_Formatter
| TextFormatter_ptr (p : option loc)
| other_Formatter (id : nat).

(** A value of interface type [io.Writer]: the nil interface or some
    writer object.  What the object does when written to, return or
    panic (as a [*bytes.Buffer] that is a nil pointer does), is the
    environment's to say. *)
Inductive Writer :=
| nil_Writer
| a_Writer (id : nat).

Global Instance Formatter_eq_dec : EqDecision Formatter.
Proof. solve_decision. Defined.
Global Instance Writer_eq_dec : EqDecision Writer.
Proof. solve_decision. Defined.

(** ** Calls to the outside world *)

(** One constructor per call the hook makes outside the package; a call
    whose result the code can observe carries that result.  A call of
    [writer.Write] that panics instead of returning is recorded with
    the value it panicked with. *)
Inductive Event :=
| EvLock                                                  (* hook.lock.Lock() *)
| EvUnlock                                                (* hook.lock.Unlock() *)
| EvMkdirAll (dir : string)                               (* os.MkdirAll(dir, os.ModePerm) *)
| EvOpenFile (path : string) (res : option error)         (* os.OpenFile(path, O_WRONLY|O_APPEND|O_CREATE, 0666) *)
| EvClose (path : string)                                 (* fd.Close() *)
| EvFormat (f : Formatter) (res : bytes + error)          (* hook.formatter.Format(entry) *)
| EvFileWrite (path : string) (msg : bytes) (res : option error)  (* fd.Write(msg) *)
| EvWrite (w : nat) (msg : bytes) (res : option error)    (* writer.Write(msg) *)
| EvWritePanic (w : nat) (msg : bytes) (reason : string)  (* writer.Write(msg), panicking *)
| EvPrintln (line : string).                              (* log.Println(...) *)

(** The collaborators.  Each answer may depend on everything that
    happened before (the trace so far). *)
Record Env := {
  AllLevels : list Level;                                        (* logrus.AllLevels *)
  filepath_Dir : string → string;                                (* filepath.Dir *)
  open_result : list Event → string → option error;              (* os.OpenFile *)
  file_write_result : list Event → string → bytes → option error;   (* fd.Write *)
  write_result : list Event → nat → bytes → option error;        (* io.Writer.Write *)
  write_panic : list Event → nat → bytes → option string;        (* io.Writer.Write, panicking *)
  format_text : list Event → TextFormatter → Entry → bytes + error; (* TextFormatter.Format *)
  format_other : list Event → nat → Entry → bytes + error        (* any other Format *)
}.

(** The mutable state outside the hook: the [TextFormatter] objects
    reachable through pointers, and the calls made so far (oldest
    first). *)
Record World := {
  heap : loc → TextFormatter;
  trace : list Event
}.

Definition emit (ev : Event) (w : World) : World :=
  {| heap := heap w; trace := trace w ++ [ev] |}.

Definition set_heap (h : loc → TextFormatter) (w : World) : World :=
  {| heap := h; trace := trace w |}.

(** [w] after the further calls [evs]. *)
Definition after (w : World) (evs : list Event) : World :=
  {| heap := heap w; trace := trace w ++ evs |}.

(** ** A monad for Go function bodies: state, and panics *)

Inductive Outcome (A : Type) :=
| Done (a : A)
| Panicked (msg : string).
Arguments Done {A} a.
Arguments Panicked {A} msg.

Definition M (A : Type) : Type := World → Outcome A * World.

Global Instance M_ret : MRet M := λ A a w, (Done a, w).

Global Instance M_bind : MBind M := λ A B k m w,
  match m w with
  | (Done a, w') => k a w'
  | (Panicked msg, w') => (Panicked msg, w')
  end.

Definition panic {A} (msg : string) : M A := λ w, (Panicked msg, w).

(** [defer cleanup] before [body]: the deferred call runs when the
    body is left, by return or by panic. *)
Definition defer {A} (cleanup : World → World) (body : M A) : M A := λ w,
  let '(r, w') := body w in (r, cleanup w').

(** An outside call: ask the environment, record call and answer. *)
Definition call {A} (ev : A → Event) (answer : list Event → A) : M A := λ w,
  let r := answer (trace w) in (Done r, emit (ev r) w).

Definition nil_dereference : string :=
  "runtime error: invalid memory address or nil pointer dereference".

(** ** The package *)

(** [var defaultFormatter = &logrus.TextFormatter{DisableColors: true}] *)
Definition defaultFormatter : loc := 0%nat.

Definition defaultFormatter_init : TextFormatter :=
  {| ForceColors := false; DisableColors := true;
     DisableTimestamp := false; FullTimestamp := false |}.

(** Go maps are reference values: [None] is the nil map, [Some ∅] an
    empty one. *)
Definition PathMap := option (gmap Level string).
Definition WriterMap := option (gmap Level Writer).

(** [v, ok = m[k]]: reading a nil map finds nothing. *)
Definition index {V} (m : option (gmap Level V)) (k : Level) : option V :=
  t ← m; t !! k.

(** [m != nil] *)
Definition non_nil {A} (m : option A) : bool :=
  match m with Some _ => true | None => false end.

(** The keys met by [for level := range m]; Go leaves the order open,
    and nothing in the package reads the slice built from it. *)
Definition range_keys {V} (m : option (gmap Level V)) : list Level :=
  match m with Some t => (map_to_list t).*1 | None => [] end.

(** [*sync.Mutex]; the model is sequential, [Lock] and [Unlock] are
    recorded in the trace. *)
Inductive Mutex := new_Mutex.

Record lfsHook := {
  paths : PathMap;
  writers : WriterMap;
  levels : list Level;
  lock : Mutex;
  formatter : Formatter;
  defaultPath : string;
  defaultWriter : Writer;
  hasDefaultPath : bool;
  hasDefaultWriter : bool
}.

Definition set_paths (v : PathMap) (h : lfsHook) : lfsHook :=
  {| paths := v; writers := writers h; levels := levels h; lock := lock h;
     formatter := formatter h; defaultPath := defaultPath h;
     defaultWriter := defaultWriter h; hasDefaultPath := hasDefaultPath h;
     hasDefaultWriter := hasDefaultWriter h |}.

Definition set_writers (v : WriterMap) (h : lfsHook) : lfsHook :=
  {| paths := paths h; writers := v; levels := levels h; lock := lock h;
     formatter := formatter h; defaultPath := defaultPath h;
     defaultWriter := defaultWriter h; hasDefaultPath := hasDefaultPath h;
     hasDefaultWriter := hasDefaultWriter h |}.

Definition set_levels (v : list Level) (h : lfsHook) : lfsHook :=
  {| paths := paths h; writers := writers h; levels := v; lock := lock h;
     formatter := formatter h; defaultPath := defaultPath h;
     defaultWriter := defaultWriter h; hasDefaultPath := hasDefaultPath h;
     hasDefaultWriter := hasDefaultWriter h |}.

Definition set_formatter (v : Formatter) (h : lfsHook) : lfsHook :=
  {| paths := paths h; writers := writers h; levels := levels h; lock := lock h;
     formatter := v; defaultPath := defaultPath h;
     defaultWriter := defaultWriter h; hasDefaultPath := hasDefaultPath h;
     hasDefaultWriter := hasDefaultWriter h |}.

Definition set_defaultPath (v : string) (b : bool) (h : lfsHook) : lfsHook :=
  {| paths := paths h; writers := writers h; levels := levels h; lock := lock h;
     formatter := formatter h; defaultPath := v;
     defaultWriter := defaultWriter h; hasDefaultPath := b;
     hasDefaultWriter := hasDefaultWriter h |}.

Definition set_defaultWriter (v : Writer) (b : bool) (h : lfsHook) : lfsHook :=
  {| paths := paths h; writers := writers h; levels := levels h; lock := lock h;
     formatter := formatter h; defaultPath := defaultPath h;
     defaultWriter := v; hasDefaultPath := hasDefaultPath h;
     hasDefaultWriter := b |}.

(** The dynamic type of the [interface{}] argument of [NewHook]. *)
Inductive levelMap_arg :=
| lm_nil                                  (* case nil *)
| lm_PathMap (m : PathMap)                (* case PathMap *)
| lm_WriterMap (m : WriterMap)            (* case WriterMap *)
| lm_other (type_name : string).          (* default; [type_name] is reflect.TypeOf *)

(** [userFormatter != nil]: only the nil interface is nil, an interface
    holding a nil pointer is not. *)
Definition formatter_non_nil (f : Formatter) : bool :=
  match f with nil_Formatter => false | _ => true end.

Definition NewHook (levelMap : levelMap_arg) (userFormatter : Formatter) : M lfsHook :=
  let formatter :=
    if formatter_non_nil userFormatter then userFormatter
    else TextFormatter_ptr (Some defaultFormatter) in
  let hook :=
    {| paths := None; writers := None; levels := []; lock := new_Mutex;
       formatter := formatter; defaultPath := ""; defaultWriter := nil_Writer;
       hasDefaultPath := false; hasDefaultWriter := false |} in
  match levelMap with
  | lm_nil => mret hook
  | lm_PathMap m => mret (set_levels (levels hook ++ range_keys m) (set_paths m hook))
  | lm_WriterMap m => mret (set_levels (levels hook ++ range_keys m) (set_writers m hook))
  | lm_other type_name => panic ("unsupported level map type: " +:+ type_name)
  end.

(** [SetFormatter] writes through the receiver and through the
    formatter pointer; it returns the hook as it leaves it, also when
    it panics. *)
Definition SetFormatter (hook : lfsHook) (f : Formatter) (w : World)
  : Outcome unit * lfsHook * World :=
  let hook := set_formatter f hook in
  match formatter hook with
  | TextFormatter_ptr (Some textFormatter) =>
      (Done (), hook, set_heap (alter (set_DisableColors true) textFormatter (heap w)) w)
  | TextFormatter_ptr None => (Panicked nil_dereference, hook, w)
  | _ => (Done (), hook, w)
  end.

Definition SetDefaultPath (hook : lfsHook) (defaultPath : string) : lfsHook :=
  set_defaultPath defaultPath true hook.

Definition SetDefaultWriter (hook : lfsHook) (defaultWriter : Writer) : lfsHook :=
  set_defaultWriter defaultWriter true hook.

Section Hook.
Variable env : Env.

Definition mutex_Lock : M unit := λ w, (Done (), emit EvLock w).
Definition mutex_Unlock : World → World := emit EvUnlock.

Definition os_MkdirAll (dir : string) : M unit := λ w, (Done (), emit (EvMkdirAll dir) w).

Definition os_OpenFile (path : string) : M (option error) :=
  call (EvOpenFile path) (λ past, open_result env past path).

Definition file_Write (path : string) (msg : bytes) : M (option error) :=
  call (EvFileWrite path msg) (λ past, file_write_result env past path msg).

Definition file_Close (path : string) : World → World := emit (EvClose path).

Definition log_Println (line : string) : M unit := λ w, (Done (), emit (EvPrintln line) w).

(** [f.Format(entry)]: a method call on the nil interface panics, and so
    does logrus' method on a nil [*TextFormatter], which reads the
    fields of its receiver. *)
Definition Format (f : Formatter) (entry : Entry) : M (bytes + error) :=
  match f with
  | nil_Formatter => panic nil_dereference
  | TextFormatter_ptr None => panic nil_dereference
  | TextFormatter_ptr (Some p) =>
      λ w, call (EvFormat f) (λ past, format_text env past (heap w p) entry) w
  | other_Formatter id => call (EvFormat f) (λ past, format_other env past id entry)
  end.

(** [writer.Write(msg)]: a method call on the nil interface panics; the
    method of a writer object returns or panics as the environment
    says. *)
Definition Write (writer : Writer) (msg : bytes) : M (option error) :=
  match writer with
  | nil_Writer => panic nil_dereference
  | a_Writer id => λ w,
      match write_panic env (trace w) id msg with
      | Some reason => (Panicked reason, emit (EvWritePanic id msg reason) w)
      | None => call (EvWrite id msg) (λ past, write_result env past id msg) w
      end
  end.

Definition format_failure (err : error) : string :=
  "failed to generate string for entry: " +:+ err.

Definition open_failure (path : string) (err : error) : string :=
  "failed to open logfile: " +:+ path +:+ " " +:+ err.

(** Write a log line to an io.Writer *)
Definition ioWrite (hook : lfsHook) (entry : Entry) : M (option error) :=
  mutex_Lock ;;
  defer mutex_Unlock (
    match
      match index (writers hook) (entry_Level entry) with
      | Some writer => Some writer
      | None => if hasDefaultWriter hook then Some (defaultWriter hook) else None
      end
    with
    | None => mret None
    | Some writer =>
        r ← Format (formatter hook) entry;
        match r with
        | inr err => log_Println (format_failure err) ;; mret (Some err)
        | inl msg => Write writer msg
        end
    end).

(** Write a log line directly to a file *)
Definition fileWrite (hook : lfsHook) (entry : Entry) : M (option error) :=
  mutex_Lock ;;
  defer mutex_Unlock (
    match
      match index (paths hook) (entry_Level entry) with
      | Some path => Some path
      | None => if hasDefaultPath hook then Some (defaultPath hook) else None
      end
    with
    | None => mret None
    | Some path =>
        os_MkdirAll (filepath_Dir env path) ;;
        opened ← os_OpenFile path;
        match opened with
        | Some err => log_Println (open_failure path err) ;; mret (Some err)
        | None =>
            defer (file_Close path) (
              r ← Format (formatter hook) entry;
              match r with
              | inr err => log_Println (format_failure err) ;; mret (Some err)
              | inl msg => file_Write path msg ;; mret None
              end)
        end
    end).

Definition Fire (hook : lfsHook) (entry : Entry) : M (option error) :=
  if non_nil (writers hook) || hasDefaultWriter hook then ioWrite hook entry
  else if non_nil (paths hook) || hasDefaultPath hook then fileWrite hook entry
  else mret None.

(** Levels returns configured log levels. *)
Definition Levels (hook : lfsHook) : list Level := AllLevels env.

(** ** Vocabulary of the statements *)

(** The calls made by one [Fire], oldest first. *)
Definition fired (hook : lfsHook) (entry : Entry) (w : World) : list Event :=
  drop (length (trace w)) (trace (Fire hook entry w).2).

(** The two tests of [Fire]. *)
Definition writer_side (hook : lfsHook) : bool :=
  non_nil (writers hook) || hasDefaultWriter hook.

Definition path_side (hook : lfsHook) : bool :=
  non_nil (paths hook) || hasDefaultPath hook.

(** The destination of the stream-writing mode: table entry first, the
    default only for a level the table lacks. *)
Definition writer_for (hook : lfsHook) (level : Level) : option Writer :=
  match index (writers hook) level with
  | Some writer => Some writer
  | None => if hasDefaultWriter hook then Some (defaultWriter hook) else None
  end.

Definition path_for (hook : lfsHook) (level : Level) : option string :=
  match index (paths hook) level with
  | Some path => Some path
  | None => if hasDefaultPath hook then Some (defaultPath hook) else None
  end.

(** One [Fire] streams to [writer]: no other writer and no file
    receives bytes, and what the formatter produced is handed to
    [writer]. *)
Definition streams_to (hook : lfsHook) (entry : Entry) (w : World) (writer : Writer) : Prop :=
  (∀ id msg res, EvWrite id msg res ∈ fired hook entry w → a_Writer id = writer)
  ∧ (∀ id msg reason, EvWritePanic id msg reason ∈ fired hook entry w → a_Writer id = writer)
  ∧ (∀ path msg res, EvFileWrite path msg res ∉ fired hook entry w)
  ∧ (∀ id msg, writer = a_Writer id →
       EvFormat (formatter hook) (inl msg) ∈ fired hook entry w →
       (∃ res, EvWrite id msg res ∈ fired hook entry w)
       ∨ (∃ reason, EvWritePanic id msg reason ∈ fired hook entry w)).

(** One [Fire] delivers to [writer]: as soon as the formatter, asked
    under the lock, returns bytes, [writer.Write] is called with these
    bytes, and what it returns is what [Fire] returns.  A panic of the
    call, or the call on the nil interface, goes through [Fire], the
    lock released on the way. *)
Definition stream_delivery (hook : lfsHook) (entry : Entry) (w : World)
    (writer : Writer) : Prop :=
  ∀ msg,
    (Format (formatter hook) entry (after w [EvLock])).1 = Done (inl msg) →
    let formatted := EvFormat (formatter hook) (inl msg) in
    match writer with
    | nil_Writer =>
        Fire hook entry w
        = (Panicked nil_dereference, after w [EvLock; formatted; EvUnlock])
    | a_Writer id =>
        match write_panic env (trace w ++ [EvLock; formatted]) id msg with
        | Some reason =>
            Fire hook entry w
            = (Panicked reason,
               after w [EvLock; formatted; EvWritePanic id msg reason; EvUnlock])
        | None =>
            let res := write_result env (trace w ++ [EvLock; formatted]) id msg in
            Fire hook entry w
            = (Done res, after w [EvLock; formatted; EvWrite id msg res; EvUnlock])
        end
    end.

(** One [Fire] delivers to the file at [path]: the directory of [path]
    is created and [path] is opened, whatever comes of it; and when the
    open succeeds and the formatter, asked next, returns bytes, these
    bytes are written to the file opened, which is closed again, and
    [Fire] returns nil. *)
Definition file_delivery (hook : lfsHook) (entry : Entry) (w : World)
    (path : string) : Prop :=
  let made := EvMkdirAll (filepath_Dir env path) in
  let opened := EvOpenFile path None in
  (∃ evs,
     fired hook entry w
     = EvLock :: made
       :: EvOpenFile path (open_result env (trace w ++ [EvLock; made]) path) :: evs)
  ∧ (open_result env (trace w ++ [EvLock; made]) path = None →
     ∀ msg,
       (Format (formatter hook) entry (after w [EvLock; made; opened])).1
       = Done (inl msg) →
       let formatted := EvFormat (formatter hook) (inl msg) in
       let res :=
         file_write_result env (trace w ++ [EvLock; made; opened; formatted]) path msg in
       Fire hook entry w
       = (Done None,
          after w [EvLock; made; opened; formatted; EvFileWrite path msg res;
                   EvClose path; EvUnlock])).

(** One [Fire] appends to the file at [path]: no other file is opened
    or written, no writer receives bytes, and what the formatter
    produced is written to the file opened at [path]. *)
Definition appends_to (hook : lfsHook) (entry : Entry) (w : World) (path : string) : Prop :=
  (∀ p res, EvOpenFile p res ∈ fired hook entry w → p = path)
  ∧ (∀ p msg res, EvFileWrite p msg res ∈ fired hook entry w → p = path)
  ∧ (∀ id msg res, EvWrite id msg res ∉ fired hook entry w)
  ∧ (∀ msg, EvFormat (formatter hook) (inl msg) ∈ fired hook entry w →
       ∃ res, EvFileWrite path msg res ∈ fired hook entry w).

End Hook.

(** Bytes handed to a destination. *)
Definition is_write (ev : Event) : bool :=
  match ev with
  | EvFileWrite _ _ _ | EvWrite _ _ _ | EvWritePanic _ _ _ => true
  | _ => false
  end.

(** Calls into the file system. *)
Definition is_file_call (ev : Event) : bool :=
  match ev with
  | EvMkdirAll _ | EvOpenFile _ _ | EvClose _ | EvFileWrite _ _ _ => true
  | _ => false
  end.

(** The calls on the mutex among [evs]. *)
Definition lock_calls (evs : list Event) : list Event :=
  List.filter (λ ev, match ev with EvLock | EvUnlock => true | _ => false end) evs.

(** ** Concrete collaborators for the examples *)

(** logrus numbers its severities from [PanicLevel] up. *)
Definition PanicLevel : Level := 0%N.
Definition FatalLevel : Level := 1%N.
Definition ErrorLevel : Level := 2%N.
Definition WarnLevel : Level := 3%N.
Definition InfoLevel : Level := 4%N.
Definition DebugLevel : Level := 5%N.
Definition TraceLevel : Level := 6%N.

(** An environment with a few faults built in: writer 1 has a broken
    pipe, writer 2 is a nil pointer behind a non-nil interface and
    panics when written to, ["/root/denied.log"] cannot be opened,
    ["/mnt/full.log"] sits on a full disk, and formatter object 1
    cannot render anything. *)
Definition test_env : Env := {|
  AllLevels := [PanicLevel; FatalLevel; ErrorLevel; WarnLevel; InfoLevel;
                DebugLevel; TraceLevel];
  filepath_Dir := λ path, if String.eqb path "/root/denied.log" then "/root"
                          else if String.eqb path "/mnt/full.log" then "/mnt"
                          else "/tmp";
  open_result := λ _ path,
    if String.eqb path "/root/denied.log" then Some "permission denied" else None;
  file_write_result := λ _ path _,
    if String.eqb path "/mnt/full.log" then Some "no space left on device" else None;
  write_result := λ _ id _, if Nat.eqb id 1 then Some "broken pipe" else None;
  write_panic := λ _ id _, if Nat.eqb id 2 then Some nil_dereference else None;
  format_text := λ _ t entry,
    inl (String.list_byte_of_string
           (if DisableColors t then entry_Message entry
            else "[color]" +:+ entry_Message entry));
  format_other := λ _ id entry,
    if Nat.eqb id 1 then inr "cannot render"
    else inl (String.list_byte_of_string (entry_Message entry))
|}.

(** The world when the program starts: no call made yet, the package
    variable initialised, every other formatter object with colors
    left on. *)
Definition colored : TextFormatter :=
  {| ForceColors := true; DisableColors := false;
     DisableTimestamp := false; FullTimestamp := false |}.

Definition start : World :=
  {| heap := <[defaultFormatter := defaultFormatter_init]> (λ _, colored);
     trace := [] |}.

Definition info_entry : Entry := {| entry_Level := InfoLevel; entry_Message := "up" |}.
Definition error_entry : Entry := {| entry_Level := ErrorLevel; entry_Message := "down" |}.

Definition bare_hook (f : Formatter) : lfsHook :=
  {| paths := None; writers := None; levels := []; lock := new_Mutex;
     formatter := f; defaultPath := ""; defaultWriter := nil_Writer;
     hasDefaultPath := false; hasDefaultWriter := false |}.

(** [{Error: writer 0}] and [{Error: "/tmp/e.log"}] *)
Definition error_writers : WriterMap := Some {[ ErrorLevel := a_Writer 0 ]}.
Definition error_paths : PathMap := Some {[ ErrorLevel := "/tmp/e.log" ]}.

(** What [NewHook(error_writers, nil)] and [NewHook(error_paths, nil)]
    return (lemma [NewHook_examples]). *)
Definition stream_hook : lfsHook :=
  set_levels [ErrorLevel]
    (set_writers error_writers (bare_hook (TextFormatter_ptr (Some defaultFormatter)))).

Definition file_hook : lfsHook :=
  set_levels [ErrorLevel]
    (set_paths error_paths (bare_hook (TextFormatter_ptr (Some defaultFormatter)))).

(** A hook with a writer table and, against the intended use, a path
    table and a default path as well: writer mode wins. *)
Definition mixed_hook : lfsHook :=
  SetDefaultPath (set_paths error_paths stream_hook) "/tmp/default.log".

(** A path hook whose formatter was taken away and whose default file
    cannot be opened, built through the package's own functions. *)
Definition denied_hook : lfsHook :=
  (SetFormatter (SetDefaultPath file_hook "/root/denied.log") nil_Formatter start).1.2.

(** The same for the stream side: default writer 0, no formatter. *)
Definition mute_hook : lfsHook :=
  (SetFormatter (SetDefaultWriter stream_hook (a_Writer 0)) nil_Formatter start).1.2.

(** A client formatter object with colors left on, at address 5. *)
Definition client_formatter : Formatter := TextFormatter_ptr (Some 5%nat).

(** The scenario of the specification: path table [{Error: "/tmp/e.log"}]
    with default path ["/tmp/default.log"]; and its stream counterpart
    with the broken writer 1 as default. *)
Definition scenario_hook : lfsHook := SetDefaultPath file_hook "/tmp/default.log".
Definition piped_hook : lfsHook := SetDefaultWriter stream_hook (a_Writer 1).

(** Hooks whose formatter object 1 cannot render; one appends to the
    file on the full disk. *)
Definition garbled_stream_hook : lfsHook :=
  set_formatter (other_Formatter 1) piped_hook.
Definition garbled_file_hook : lfsHook :=
  set_formatter (other_Formatter 1) scenario_hook.
Definition full_disk_hook : lfsHook := SetDefaultPath file_hook "/mnt/full.log".

(** A world some way into a run: the client has handed its colored
    formatter to a hook, and the hook has fired one entry. *)
Definition handed_over : Outcome unit * lfsHook * World :=
  SetFormatter piped_hook client_formatter start.

Definition later : World :=
  (Fire test_env handed_over.1.2 info_entry handed_over.2).2.

(** ** Disciplines read off a trace *)

(** Running a rule over the calls, oldest first; [None] as soon as one
    call breaks the rule. *)
Fixpoint check {S : Type} (rule : S → Event → option S) (s : S) (evs : list Event)
  : option S :=
  match evs with
  | [] => Some s
  | ev :: evs =>
      match rule s ev with
      | Some s' => check rule s' evs
      | None => None
      end
  end.

(** The mutex: [Lock] only when free, [Unlock] only when held, and
    every other call with the lock held.  The state says whether the
    mutex is held. *)
Definition mutex_rule (held : bool) (ev : Event) : option bool :=
  match ev with
  | EvLock => if held then None else Some true
  | EvUnlock => if held then Some false else None
  | _ => if held then Some true else None
  end.

(** File handles: at most one file is open, a write or a close goes to
    the file that is open.  The state is the path of the open file. *)
Definition handle_rule (cur : option string) (ev : Event) : option (option string) :=
  match ev with
  | EvOpenFile p None =>
      match cur with None => Some (Some p) | Some _ => None end
  | EvFileWrite p _ _ =>
      match cur with
      | Some q => if String.eqb p q then Some cur else None
      | None => None
      end
  | EvClose p =>
      match cur with
      | Some q => if String.eqb p q then Some None else None
      | None => None
      end
  | _ => Some cur
  end.

Definition is_format (ev : Event) : bool :=
  match ev with EvFormat _ _ => true | _ => false end.

Definition is_println (ev : Event) : bool :=
  match ev with EvPrintln _ => true | _ => false end.

(** A formatter on which [Format] can be called: an object, not nil. *)
Definition usable (f : Formatter) : bool :=
  match f with
  | TextFormatter_ptr (Some _) | other_Formatter _ => true
  | _ => false
  end.

(** A world in which also a file has been appended to. *)
Definition later_file : World :=
  (Fire test_env full_disk_hook info_entry later).2.

(** A writer table whose Error entry is the nil writer, and a second
    client formatter object. *)
Definition nil_writer_hook : lfsHook :=
  set_writers (Some {[ ErrorLevel := nil_Writer ]}) stream_hook.

Definition second_formatter : Formatter := TextFormatter_ptr (Some 7%nat).

(** A file hook that was then given the panicking writer 2 as default. *)
Definition nil_buffer_hook : lfsHook := SetDefaultWriter scenario_hook (a_Writer 2).

(** ** The worlds the program can get into *)

(** At program start the package variable holds its initial value. *)
Definition initial (w : World) : Prop :=
  heap w defaultFormatter = defaultFormatter_init ∧ trace w = [].

(** One step of the program: a call into the package, or the client
    changing a formatter object of its own ([defaultFormatter] is not
    exported, and no function of the package hands it out). *)
Inductive step (env : Env) : World → World → Prop :=
| step_NewHook levelMap userFormatter w :
    step env w (NewHook levelMap userFormatter w).2
| step_SetFormatter hook f w :
    step env w (SetFormatter hook f w).2
| step_Fire hook entry w :
    step env w (Fire env hook entry w).2
| step_client p t w :
    p ≠ defaultFormatter →
    step env w (set_heap (<[p := t]> (heap w)) w).

Definition reachable (env : Env) (w : World) : Prop :=
  ∃ w0, initial w0 ∧ rtc (step env) w0 w.

(** ** Running the bodies *)

Lemma after_nil w : after w [] = w.
Proof. destruct w. unfold after. simpl. by rewrite app_nil_r. Qed.

Lemma after_after w evs evs' : after (after w evs) evs' = after w (evs ++ evs').
Proof. unfold after. simpl. by rewrite <- app_assoc. Qed.

Lemma emit_after ev w : emit ev w = after w [ev].
Proof. done. Qed.

Lemma trace_after w evs : trace (after w evs) = trace w ++ evs.
Proof. done. Qed.

Lemma heap_after w evs : heap (after w evs) = heap w.
Proof. done. Qed.

Lemma drop_after w evs : drop (length (trace w)) (trace (after w evs)) = evs.
Proof. simpl. by rewrite drop_app_length. Qed.

Ltac unfold_calls :=
  unfold mutex_Lock, mutex_Unlock, os_MkdirAll,
    os_OpenFile, file_Write, file_Close, log_Println, Write,
    defer, call, panic, mbind, M_bind, mret, M_ret in *.

Ltac tidy :=
  simpl; rewrite ?emit_after, ?after_after, ?trace_after, <- ?app_assoc; simpl.

Section Run.
Variable env : Env.

(** The answer of the formatter, as the hook sees it. *)
Lemma Format_run f entry w :
  Format env f entry w =
    match f with
    | nil_Formatter | TextFormatter_ptr None => (Panicked nil_dereference, w)
    | TextFormatter_ptr (Some p) =>
        let r := format_text env (trace w) (heap w p) entry in
        (Done r, after w [EvFormat f r])
    | other_Formatter id =>
        let r := format_other env (trace w) id entry in
        (Done r, after w [EvFormat f r])
    end.
Proof. by destruct f as [|[p|]|id]. Qed.

Lemma Format_after f entry w r w' :
  Format env f entry w = (Done r, w') → w' = after w [EvFormat f r].
Proof. rewrite Format_run. destruct f as [|[p|]|id]; naive_solver. Qed.

Lemma Format_panic f entry w msg w' :
  Format env f entry w = (Panicked msg, w') → w' = w ∧ msg = nil_dereference.
Proof. rewrite Format_run. destruct f as [|[p|]|id]; naive_solver. Qed.

(** Every path through [ioWrite]: outcome and calls made. *)
Lemma ioWrite_run hook entry w :
  ioWrite env hook entry w =
    match writer_for hook (entry_Level entry) with
    | None => (Done None, after w [EvLock; EvUnlock])
    | Some writer =>
        let f := formatter hook in
        match (Format env f entry (after w [EvLock])).1 with
        | Panicked msg => (Panicked msg, after w [EvLock; EvUnlock])
        | Done (inr err) =>
            (Done (Some err),
             after w [EvLock; EvFormat f (inr err); EvPrintln (format_failure err); EvUnlock])
        | Done (inl msg) =>
            match writer with
            | nil_Writer =>
                (Panicked nil_dereference, after w [EvLock; EvFormat f (inl msg); EvUnlock])
            | a_Writer id =>
                match write_panic env (trace w ++ [EvLock; EvFormat f (inl msg)]) id msg with
                | Some reason =>
                    (Panicked reason,
                     after w [EvLock; EvFormat f (inl msg);
                              EvWritePanic id msg reason; EvUnlock])
                | None =>
                    let r := write_result env (trace w ++ [EvLock; EvFormat f (inl msg)]) id msg in
                    (Done r, after w [EvLock; EvFormat f (inl msg); EvWrite id msg r; EvUnlock])
                end
            end
        end
    end.
Proof.
  unfold ioWrite, writer_for.
  destruct (match index _ _ with Some _ => _ | None => _ end) as [writer|];
    unfold_calls; tidy; [|done].
  destruct (Format env _ entry _) as [[r|msg] w'] eqn:HF; simpl.
  - apply Format_after in HF as ->. destruct r, writer; tidy; try done.
    destruct (write_panic env _ id b); tidy; done.
  - apply Format_panic in HF as [-> ->]. tidy. done.
Qed.

(** Every path through [fileWrite]. *)
Lemma fileWrite_run hook entry w :
  fileWrite env hook entry w =
    match path_for hook (entry_Level entry) with
    | None => (Done None, after w [EvLock; EvUnlock])
    | Some path =>
        let f := formatter hook in
        let mk := EvMkdirAll (filepath_Dir env path) in
        match open_result env (trace w ++ [EvLock; mk]) path with
        | Some err =>
            (Done (Some err),
             after w [EvLock; mk; EvOpenFile path (Some err);
                      EvPrintln (open_failure path err); EvUnlock])
        | None =>
            let op := EvOpenFile path None in
            match (Format env f entry (after w [EvLock; mk; op])).1 with
            | Panicked msg =>
                (Panicked msg, after w [EvLock; mk; op; EvClose path; EvUnlock])
            | Done (inr err) =>
                (Done (Some err),
                 after w [EvLock; mk; op; EvFormat f (inr err);
                          EvPrintln (format_failure err); EvClose path; EvUnlock])
            | Done (inl msg) =>
                let r := file_write_result env
                           (trace w ++ [EvLock; mk; op; EvFormat f (inl msg)]) path msg in
                (Done None,
                 after w [EvLock; mk; op; EvFormat f (inl msg);
                          EvFileWrite path msg r; EvClose path; EvUnlock])
            end
        end
    end.
Proof.
  unfold fileWrite, path_for.
  destruct (match index _ _ with Some _ => _ | None => _ end) as [path|];
    unfold_calls; tidy; [|done].
  destruct (open_result env _ path) as [err|]; tidy; [done|].
  destruct (Format env _ entry _) as [[r|msg] w'] eqn:HF; simpl.
  - apply Format_after in HF as ->. destruct r; tidy; done.
  - apply Format_panic in HF as [-> ->]. tidy. done.
Qed.

End Run.

(** ** Dispatch *)

Section Dispatch.
Variable env : Env.

Lemma Fire_stream hook entry w :
  writer_side hook = true → Fire env hook entry w = ioWrite env hook entry w.
Proof. unfold Fire, writer_side. by intros ->. Qed.

Lemma Fire_file hook entry w :
  writer_side hook = false → path_side hook = true →
  Fire env hook entry w = fileWrite env hook entry w.
Proof. unfold Fire, writer_side, path_side. by intros -> ->. Qed.

Lemma Fire_idle hook entry w :
  writer_side hook = false → path_side hook = false →
  Fire env hook entry w = (Done None, w).
Proof. unfold Fire, writer_side, path_side. by intros -> ->. Qed.

Lemma writer_side_true hook :
  writer_side hook = true ↔ writers hook ≠ None ∨ hasDefaultWriter hook = true.
Proof.
  unfold writer_side.
  destruct (writers hook), (hasDefaultWriter hook); simpl; intuition congruence.
Qed.

Lemma path_side_true hook :
  path_side hook = true ↔ paths hook ≠ None ∨ hasDefaultPath hook = true.
Proof.
  unfold path_side.
  destruct (paths hook), (hasDefaultPath hook); simpl; intuition congruence.
Qed.

(** The calls of a [Fire] whose final world is known. *)
Lemma fired_of hook entry w r evs :
  Fire env hook entry w = (r, after w evs) → fired env hook entry w = evs.
Proof. unfold fired. intros ->. apply drop_after. Qed.

Lemma fired_idle hook entry w :
  writer_side hook = false → path_side hook = false → fired env hook entry w = [].
Proof.
  intros Hw Hp. apply (fired_of _ _ _ (Done None)).
  by rewrite Fire_idle, after_nil.
Qed.

(** The path side plays no part in [ioWrite]. *)
Lemma ioWrite_ignores_paths hook entry w pathTable path flag :
  ioWrite env (set_defaultPath path flag (set_paths pathTable hook)) entry w
  = ioWrite env hook entry w.
Proof. done. Qed.

(** The calls of a [Fire] in stream-writing mode, read off the table of
    [ioWrite]. *)
Lemma fired_stream hook entry w :
  writer_side hook = true →
  fired env hook entry w =
    drop (length (trace w)) (trace (ioWrite env hook entry w).2).
Proof. intros Hw. unfold fired. by rewrite Fire_stream. Qed.

Lemma fired_file hook entry w :
  writer_side hook = false → path_side hook = true →
  fired env hook entry w =
    drop (length (trace w)) (trace (fileWrite env hook entry w).2).
Proof. intros Hw Hp. unfold fired. by rewrite Fire_file. Qed.

End Dispatch.

(** Case analysis over the tables [ioWrite_run] and [fileWrite_run]. *)
Ltac run_cases :=
  cbv zeta;
  repeat match goal with
  | |- context [match ?x with _ => _ end] => destruct x eqn:?; cbv zeta
  end;
  simpl fst; simpl snd; rewrite ?drop_after.

Ltac in_list H :=
  repeat (apply elem_of_cons in H as [H|H]; [simplify_eq|]);
  try (by apply elem_of_nil in H).

Ltac find_in :=
  repeat first [apply list_elem_of_here | apply list_elem_of_further].

(** Split on the mode of [Fire] and on the path taken through it. *)
Ltac fire_cases env hook entry w :=
  let Hw := fresh "Hw" in
  let Hp := fresh "Hp" in
  destruct (writer_side hook) eqn:Hw;
  [ rewrite ?(fired_stream env hook entry w Hw), ?(Fire_stream env hook entry w Hw),
      ?ioWrite_run
  | destruct (path_side hook) eqn:Hp;
    [ rewrite ?(fired_file env hook entry w Hw Hp), ?(Fire_file env hook entry w Hw Hp),
        ?fileWrite_run
    | rewrite ?(fired_idle env hook entry w Hw Hp), ?(Fire_idle env hook entry w Hw Hp) ] ];
  run_cases.

Section Firing.
Variable env : Env.

(** [Fire] only adds calls to the trace; the formatter objects stay as
    they are. *)
Lemma Fire_after hook entry w :
  (Fire env hook entry w).2 = after w (fired env hook entry w).
Proof. fire_cases env hook entry w; rewrite ?after_nil; done. Qed.

(** C1. [Fire] tests the writer side first (writer table non-nil, or a
    default writer set) and then runs [ioWrite]; failing that it tests
    the path side (path table non-nil, or a default path set) and runs
    [fileWrite]; failing both it returns nil and makes no call at all:
    the world is left as it was.  When the writer side is configured the
    path side is never looked at: replacing the path table, the default
    path and its flag by anything changes neither result nor calls, and
    no call goes to the file system. *)
Theorem Fire_dispatch_order (hook : lfsHook) (entry : Entry) (w : World) :
  Fire env hook entry w =
    (if bool_decide (writers hook ≠ None ∨ hasDefaultWriter hook = true)
     then ioWrite env hook entry w
     else if bool_decide (paths hook ≠ None ∨ hasDefaultPath hook = true)
     then fileWrite env hook entry w
     else (Done None, w))
  ∧ ((writers hook ≠ None ∨ hasDefaultWriter hook = true) →
     (∀ pathTable path flag,
        Fire env (set_defaultPath path flag (set_paths pathTable hook)) entry w
        = Fire env hook entry w)
     ∧ Forall (λ ev, is_file_call ev = false) (fired env hook entry w)).
Proof.
  split.
  - destruct (writer_side hook) eqn:Hw.
    + rewrite bool_decide_eq_true_2 by by apply writer_side_true.
      by apply Fire_stream.
    + rewrite bool_decide_eq_false_2
        by (rewrite <- writer_side_true; congruence).
      destruct (path_side hook) eqn:Hp.
      * rewrite bool_decide_eq_true_2 by by apply path_side_true.
        by apply Fire_file.
      * rewrite bool_decide_eq_false_2
          by (rewrite <- path_side_true; congruence).
        by apply Fire_idle.
  - intros Hw%writer_side_true. split.
    + intros pathTable path flag.
      rewrite !Fire_stream by done. apply ioWrite_ignores_paths.
    + rewrite fired_stream, ioWrite_run by done.
      run_cases; repeat constructor.
Qed.

(** C2. An entry whose level is missing from the table in use, on a
    hook without a default of that kind, is dropped: [Fire] returns nil
    and, besides taking and releasing the lock, makes no call: nothing
    is formatted, opened or written.  This holds in stream-writing mode
    (first alternative) and in file-writing mode (second). *)
Theorem Fire_unrouted_level_dropped (hook : lfsHook) (entry : Entry) (w : World) :
  (writer_side hook = true
   ∧ index (writers hook) (entry_Level entry) = None
   ∧ hasDefaultWriter hook = false)
  ∨ (writer_side hook = false ∧ path_side hook = true
     ∧ index (paths hook) (entry_Level entry) = None
     ∧ hasDefaultPath hook = false) →
  Fire env hook entry w = (Done None, after w [EvLock; EvUnlock]).
Proof.
  intros [(Hw & Hi & Hd)|(Hw & Hp & Hi & Hd)].
  - rewrite Fire_stream, ioWrite_run by done.
    unfold writer_for. by rewrite Hi, Hd.
  - rewrite Fire_file, fileWrite_run by done.
    unfold path_for. by rewrite Hi, Hd.
Qed.

Lemma writer_for_streams hook entry w writer :
  writer_side hook = true →
  writer_for hook (entry_Level entry) = Some writer →
  streams_to env hook entry w writer.
Proof.
  intros Hw Hf. unfold streams_to.
  rewrite fired_stream, ioWrite_run, Hf by done.
  run_cases; repeat split; intros; try intros ?;
    repeat match goal with H : _ ∈ _ |- _ => in_list H end;
    try done;
    first [ left; eexists; find_in; fail | right; eexists; find_in; fail ].
Qed.

Lemma path_for_appends hook entry w path :
  writer_side hook = false → path_side hook = true →
  path_for hook (entry_Level entry) = Some path →
  appends_to env hook entry w path.
Proof.
  intros Hw Hp Hf. unfold appends_to.
  rewrite fired_file, fileWrite_run, Hf by done.
  run_cases; repeat split; intros; try intros ?;
    repeat match goal with H : _ ∈ _ |- _ => in_list H end;
    try done; eexists; find_in.
Qed.

Lemma writer_for_delivers hook entry w writer :
  writer_side hook = true →
  writer_for hook (entry_Level entry) = Some writer →
  stream_delivery env hook entry w writer.
Proof.
  intros Hw Hf msg HF.
  rewrite Fire_stream, ioWrite_run, Hf by done. cbv zeta. rewrite HF.
  destruct writer as [|id]; [done|].
  by destruct (write_panic env _ id msg).
Qed.

Lemma path_for_delivers hook entry w path :
  writer_side hook = false → path_side hook = true →
  path_for hook (entry_Level entry) = Some path →
  file_delivery env hook entry w path.
Proof.
  intros Hw Hp Hf. unfold file_delivery. cbv zeta. split.
  - rewrite fired_file, fileWrite_run, Hf by done.
    run_cases; eexists; reflexivity.
  - intros Ho msg HF.
    rewrite Fire_file, fileWrite_run, Hf by done. cbv zeta. by rewrite Ho, HF.
Qed.

Lemma index_Some_non_nil {V} (m : option (gmap Level V)) level v :
  index m level = Some v → non_nil m = true.
Proof. by destruct m. Qed.

(** C3. A level with an entry in the table in use is served from the
    table.  In stream-writing mode the bytes the formatter returns are
    written to the mapped writer, whose answer [Fire] returns, and no
    other writer and no file receives bytes.  In file-writing mode the
    mapped file is the one opened and, once open, the one the formatted
    bytes are appended to; no other file is opened or written.  In both
    modes replacing the default of that kind (value and flag) by
    anything changes nothing.  The default is the destination, in the
    same sense, only of a level the table lacks (last two parts). *)
Theorem Fire_mapped_destination (hook : lfsHook) (entry : Entry) (w : World) :
  (∀ writer,
     index (writers hook) (entry_Level entry) = Some writer →
     streams_to env hook entry w writer
     ∧ stream_delivery env hook entry w writer
     ∧ ∀ other flag,
         Fire env (set_defaultWriter other flag hook) entry w = Fire env hook entry w)
  ∧ (∀ path,
     writer_side hook = false →
     index (paths hook) (entry_Level entry) = Some path →
     appends_to env hook entry w path
     ∧ file_delivery env hook entry w path
     ∧ ∀ other flag,
         Fire env (set_defaultPath other flag hook) entry w = Fire env hook entry w)
  ∧ (writer_side hook = true →
     index (writers hook) (entry_Level entry) = None →
     hasDefaultWriter hook = true →
     streams_to env hook entry w (defaultWriter hook)
     ∧ stream_delivery env hook entry w (defaultWriter hook))
  ∧ (writer_side hook = false → path_side hook = true →
     index (paths hook) (entry_Level entry) = None →
     hasDefaultPath hook = true →
     appends_to env hook entry w (defaultPath hook)
     ∧ file_delivery env hook entry w (defaultPath hook)).
Proof.
  split; [|split; [|split]].
  - intros writer Hi.
    assert (non_nil (writers hook) = true) as Hn by by eapply index_Some_non_nil.
    assert (writer_side hook = true) as Hw by (unfold writer_side; by rewrite Hn).
    assert (writer_for hook (entry_Level entry) = Some writer) as Hf
      by (unfold writer_for; by rewrite Hi).
    split; [by apply writer_for_streams|]. split; [by apply writer_for_delivers|].
    intros other flag.
    rewrite !Fire_stream by (unfold writer_side; simpl; by rewrite Hn).
    rewrite !ioWrite_run. unfold writer_for. simpl. by rewrite Hi.
  - intros path Hw Hi.
    assert (non_nil (paths hook) = true) as Hn by by eapply index_Some_non_nil.
    assert (path_side hook = true) as Hp by (unfold path_side; by rewrite Hn).
    assert (path_for hook (entry_Level entry) = Some path) as Hf
      by (unfold path_for; by rewrite Hi).
    split; [by apply path_for_appends|]. split; [by apply path_for_delivers|].
    intros other flag.
    rewrite !Fire_file by (done || unfold path_side; simpl; by rewrite Hn).
    rewrite !fileWrite_run. unfold path_for. simpl. by rewrite Hi.
  - intros Hw Hi Hd.
    assert (writer_for hook (entry_Level entry) = Some (defaultWriter hook)) as Hf
      by (unfold writer_for; by rewrite Hi, Hd).
    split; [by apply writer_for_streams|by apply writer_for_delivers].
  - intros Hw Hp Hi Hd.
    assert (path_for hook (entry_Level entry) = Some (defaultPath hook)) as Hf
      by (unfold path_for; by rewrite Hi, Hd).
    split; [by apply path_for_appends|by apply path_for_delivers].
Qed.

(** C4. What the write returns reaches the caller in stream-writing
    mode only.  When [writer.Write] was called, [Fire] returns its
    result, error or nil.  When [fd.Write] was called, [Fire] returns
    nil whatever the write returned; and an error returned by [Fire] in
    file-writing mode is the error of the failed open or the error of
    the formatter. *)
Theorem Fire_write_error (hook : lfsHook) (entry : Entry) (w : World) :
  (∀ id msg res,
     EvWrite id msg res ∈ fired env hook entry w →
     writer_side hook = true ∧ (Fire env hook entry w).1 = Done res)
  ∧ (∀ path msg res,
     EvFileWrite path msg res ∈ fired env hook entry w →
     writer_side hook = false ∧ (Fire env hook entry w).1 = Done None)
  ∧ (writer_side hook = false →
     ∀ err, (Fire env hook entry w).1 = Done (Some err) →
       (∃ path, EvOpenFile path (Some err) ∈ fired env hook entry w)
       ∨ EvFormat (formatter hook) (inr err) ∈ fired env hook entry w).
Proof.
  split; [|split].
  - intros id msg res.
    fire_cases env hook entry w; intros H; in_list H; done.
  - intros path msg res.
    fire_cases env hook entry w; intros H; in_list H; done.
  - fire_cases env hook entry w; intros ? err ?; simplify_eq;
      (left; eexists; find_in; fail) || (right; find_in; fail).
Qed.

(** C5. When the formatter was asked and returned an error, [Fire]
    returns that error, no bytes are handed to any writer or file, and
    one line naming the error goes to the standard logger.  In
    file-writing mode the formatter is asked after the open, so the
    file has been opened (perhaps created) and is closed again, with
    nothing written in between. *)
Theorem Fire_format_error (hook : lfsHook) (entry : Entry) (w : World) (f : Formatter) (err : error) :
  EvFormat f (inr err) ∈ fired env hook entry w →
  (Fire env hook entry w).1 = Done (Some err)
  ∧ Forall (λ ev, is_write ev = false) (fired env hook entry w)
  ∧ EvPrintln (format_failure err) ∈ fired env hook entry w
  ∧ f = formatter hook.
Proof.
  fire_cases env hook entry w; intros H; in_list H;
    repeat split; try find_in; repeat constructor.
Qed.

(** The converse of the premise of [Fire_format_error]: a formatter that
    fails when asked is asked, in stream-writing mode as soon as the
    level resolves, in file-writing mode once the file is open. *)
Lemma Fire_asks_formatter hook entry w err :
  (∀ writer,
     writer_side hook = true →
     writer_for hook (entry_Level entry) = Some writer →
     (Format env (formatter hook) entry (after w [EvLock])).1 = Done (inr err) →
     EvFormat (formatter hook) (inr err) ∈ fired env hook entry w)
  ∧ (∀ path,
     writer_side hook = false → path_side hook = true →
     path_for hook (entry_Level entry) = Some path →
     open_result env (trace w ++ [EvLock; EvMkdirAll (filepath_Dir env path)]) path = None →
     (Format env (formatter hook) entry
        (after w [EvLock; EvMkdirAll (filepath_Dir env path); EvOpenFile path None])).1
     = Done (inr err) →
     EvFormat (formatter hook) (inr err) ∈ fired env hook entry w).
Proof.
  split.
  - intros writer Hw Hf HF.
    rewrite fired_stream, ioWrite_run, Hf by done. cbv zeta.
    rewrite HF. simpl fst; simpl snd. rewrite drop_after. find_in.
  - intros path Hw Hp Hf Ho HF.
    rewrite fired_file, fileWrite_run, Hf by done. cbv zeta.
    rewrite Ho, HF. simpl fst; simpl snd. rewrite drop_after. find_in.
Qed.

(** The lock is taken first and released last on every path through
    [ioWrite] and [fileWrite], panics included, and not touched in
    between. *)
Lemma Fire_lock_balanced hook entry w :
  fired env hook entry w = []
  ∨ (head (fired env hook entry w) = Some EvLock
     ∧ list.last (fired env hook entry w) = Some EvUnlock
     ∧ lock_calls (fired env hook entry w) = [EvLock; EvUnlock]).
Proof. fire_cases env hook entry w; auto. Qed.

End Firing.

(** ** Construction and configuration *)

Lemma NewHook_world levelMap userFormatter w :
  (NewHook levelMap userFormatter w).2 = w.
Proof. by destruct levelMap. Qed.

Lemma SetFormatter_default_stays hook f w :
  DisableColors (heap w defaultFormatter) = true →
  DisableColors (heap (SetFormatter hook f w).2 defaultFormatter) = true.
Proof.
  intros Hd. unfold SetFormatter. simpl.
  destruct f as [|[p|]|id]; simpl; try done.
  destruct (decide (p = defaultFormatter)) as [->|Hne].
  - by rewrite fn_lookup_alter.
  - by rewrite fn_lookup_alter_ne.
Qed.

Lemma step_colorless env w w' :
  step env w w' →
  DisableColors (heap w defaultFormatter) = true →
  DisableColors (heap w' defaultFormatter) = true.
Proof.
  intros [levelMap f w0|hook f w0|hook entry w0|p t w0 Hp] Hd.
  - by rewrite NewHook_world.
  - by apply SetFormatter_default_stays.
  - by rewrite Fire_after, heap_after.
  - simpl. by rewrite fn_lookup_insert_ne.
Qed.

(** Nothing the program does turns the colors of the package's own
    formatter back on. *)
Lemma defaultFormatter_colorless env w :
  reachable env w → DisableColors (heap w defaultFormatter) = true.
Proof.
  intros (w0 & [Hinit _] & Hsteps).
  assert (DisableColors (heap w0 defaultFormatter) = true) as Hd
    by by rewrite Hinit.
  clear Hinit. induction Hsteps as [w0|w0 w1 w2 Hstep _ IH]; [done|].
  apply IH. by eapply step_colorless.
Qed.

(** C6 (amended). For every formatter argument other than a nil
    [*logrus.TextFormatter] pointer, [SetFormatter] returns normally
    and has stored the argument as the hook's formatter, all other
    fields of the hook untouched and no call made.  If the argument is
    a [*logrus.TextFormatter], the object it points to has
    [DisableColors] set afterwards, whatever it held before; the other
    fields of that object and all other objects are as before.  An
    argument of any other kind leaves the world as it was.  On a nil
    [*logrus.TextFormatter] pointer [SetFormatter] stores the argument
    and then panics with a nil dereference. *)
Theorem SetFormatter_stores (hook : lfsHook) (f : Formatter) (w : World) :
  (f ≠ TextFormatter_ptr None →
   ∃ w',
     SetFormatter hook f w = (Done (), set_formatter f hook, w')
     ∧ formatter (set_formatter f hook) = f
     ∧ trace w' = trace w
     ∧ match f with
       | TextFormatter_ptr (Some p) =>
           DisableColors (heap w' p) = true
           ∧ heap w' p = set_DisableColors true (heap w p)
           ∧ ∀ q, q ≠ p → heap w' q = heap w q
       | _ => w' = w
       end)
  ∧ (f = TextFormatter_ptr None →
     SetFormatter hook f w = (Panicked nil_dereference, set_formatter f hook, w)).
Proof.
  split; [|by intros ->].
  intros Hf. destruct f as [|[p|]|id]; [| |done|]; eexists; simpl;
    (split; [reflexivity|]); repeat split; simpl.
  - by rewrite fn_lookup_alter.
  - by rewrite fn_lookup_alter.
  - intros q Hq. by rewrite fn_lookup_alter_ne.
Qed.

(** C7. [NewHook] panics exactly on an argument that is neither nil nor
    a [PathMap] nor a [WriterMap].  On the other three it returns, with
    no call made, a hook that holds the table it was given and no
    other: no table for nil, the path table alone for a [PathMap], the
    writer table alone for a [WriterMap].  So a hook fresh from
    [NewHook] never has both tables. *)
Theorem NewHook_table (levelMap : levelMap_arg) (userFormatter : Formatter) (w : World) :
  match levelMap with
  | lm_nil =>
      ∃ hook, NewHook levelMap userFormatter w = (Done hook, w)
        ∧ paths hook = None ∧ writers hook = None
  | lm_PathMap m =>
      ∃ hook, NewHook levelMap userFormatter w = (Done hook, w)
        ∧ paths hook = m ∧ writers hook = None
  | lm_WriterMap m =>
      ∃ hook, NewHook levelMap userFormatter w = (Done hook, w)
        ∧ paths hook = None ∧ writers hook = m
  | lm_other type_name =>
      NewHook levelMap userFormatter w
      = (Panicked ("unsupported level map type: " +:+ type_name), w)
  end
  ∧ ((∃ msg, (NewHook levelMap userFormatter w).1 = Panicked msg)
     ↔ levelMap ≠ lm_nil
       ∧ (∀ m, levelMap ≠ lm_PathMap m)
       ∧ (∀ m, levelMap ≠ lm_WriterMap m))
  ∧ (∀ hook, (NewHook levelMap userFormatter w).1 = Done hook →
       paths hook = None ∨ writers hook = None).
Proof.
  split; [|split].
  - destruct levelMap; simpl; eauto.
  - destruct levelMap; simpl; split.
    all: try (intros [msg Hmsg]; discriminate).
    all: try (intros (H1 & H2 & H3); congruence).
    all: try (intros (H1 & H2 & H3); exfalso; by eapply H2).
    all: try (intros (H1 & H2 & H3); exfalso; by eapply H3).
    + intros _. repeat split; intros; discriminate.
    + intros _. eauto.
  - intros hook. destruct levelMap; simpl; intros ?; simplify_eq; simpl; auto.
Qed.

(** C8. [Levels] returns [logrus.AllLevels] for every hook: the result
    depends neither on the tables nor on the [levels] field that
    [NewHook] fills from the keys of its argument, so any two hooks
    report the same levels. *)
Theorem Levels_all (env : Env) (hook : lfsHook) :
  Levels env hook = AllLevels env
  ∧ ∀ other, Levels env other = Levels env hook.
Proof. done. Qed.

(** C9. [NewHook] without a formatter installs the package's own
    [defaultFormatter], a plain-text formatter whose [DisableColors] is
    set in every world the program can reach.  A formatter that is
    passed in is stored as it is.  Either way [NewHook] leaves the
    world, and so every formatter object, as it found it. *)
Theorem NewHook_formatter (env : Env) (levelMap : levelMap_arg)
    (userFormatter : Formatter) (w : World) (hook : lfsHook) (w' : World) :
  reachable env w →
  NewHook levelMap userFormatter w = (Done hook, w') →
  w' = w
  ∧ match userFormatter with
    | nil_Formatter =>
        formatter hook = TextFormatter_ptr (Some defaultFormatter)
        ∧ DisableColors (heap w' defaultFormatter) = true
    | supplied => formatter hook = supplied
    end.
Proof.
  intros Hreach HN.
  assert (w' = w) as ->.
  { rewrite <- (NewHook_world levelMap userFormatter w). by rewrite HN. }
  split; [done|].
  apply defaultFormatter_colorless in Hreach.
  destruct levelMap, userFormatter; unfold NewHook, panic, mret, M_ret in HN;
    simplify_eq; done.
Qed.

(** C10 (amended). [SetFormatter] accepts the nil formatter and stores
    it.  On a hook without formatter, a [Fire] whose level resolves to
    a writer (table or default) panics with a nil dereference, the lock
    released; a [Fire] whose level resolves to a path panics in the
    same way when the file could be opened, and returns the error of
    the open, without reaching the formatter, when it could not. *)
Theorem Fire_nil_formatter (env : Env) (hook : lfsHook) (entry : Entry) (w : World) :
  SetFormatter hook nil_Formatter w = (Done (), set_formatter nil_Formatter hook, w)
  ∧ (formatter hook = nil_Formatter →
     (∀ writer,
        writer_side hook = true →
        writer_for hook (entry_Level entry) = Some writer →
        Fire env hook entry w = (Panicked nil_dereference, after w [EvLock; EvUnlock]))
     ∧ (∀ path,
        writer_side hook = false → path_side hook = true →
        path_for hook (entry_Level entry) = Some path →
        match open_result env (trace w ++ [EvLock; EvMkdirAll (filepath_Dir env path)]) path with
        | None => (Fire env hook entry w).1 = Panicked nil_dereference
        | Some err => (Fire env hook entry w).1 = Done (Some err)
        end)).
Proof.
  split; [done|]. intros Hnil. split.
  - intros writer Hw Hf.
    rewrite Fire_stream, ioWrite_run, Hf, Hnil by done. done.
  - intros path Hw Hp Hf.
    rewrite Fire_file, fileWrite_run, Hf, Hnil by done. cbv zeta.
    by destruct (open_result env _ path).
Qed.

(** ** The statements at work on the examples *)

(** The example hooks are what the constructor returns. *)
Lemma NewHook_examples :
  NewHook (lm_WriterMap error_writers) nil_Formatter start = (Done stream_hook, start)
  ∧ NewHook (lm_PathMap error_paths) nil_Formatter start = (Done file_hook, start).
Proof. split; vm_compute; reflexivity. Qed.

(** The scenario with path table and default path: the Info entry is
    appended to the default file, the Error entry to its own. *)
Lemma scenario_trace :
  Fire test_env scenario_hook info_entry start
  = (Done None,
     after start
       [EvLock; EvMkdirAll "/tmp"; EvOpenFile "/tmp/default.log" None;
        EvFormat (TextFormatter_ptr (Some defaultFormatter))
          (inl (String.list_byte_of_string "up"));
        EvFileWrite "/tmp/default.log" (String.list_byte_of_string "up") None;
        EvClose "/tmp/default.log"; EvUnlock])
  ∧ Fire test_env scenario_hook error_entry start
    = (Done None,
       after start
         [EvLock; EvMkdirAll "/tmp"; EvOpenFile "/tmp/e.log" None;
          EvFormat (TextFormatter_ptr (Some defaultFormatter))
            (inl (String.list_byte_of_string "down"));
          EvFileWrite "/tmp/e.log" (String.list_byte_of_string "down") None;
          EvClose "/tmp/e.log"; EvUnlock]).
Proof. split; reflexivity. Qed.

(** The [levels] field follows the table, the method [Levels] does not. *)
Lemma Levels_example :
  levels file_hook = [ErrorLevel]
  ∧ Levels test_env file_hook
    = [PanicLevel; FatalLevel; ErrorLevel; WarnLevel; InfoLevel; DebugLevel; TraceLevel]
  ∧ Levels test_env (bare_hook nil_Formatter) = Levels test_env file_hook.
Proof. repeat split. Qed.

Ltac fired_is evs :=
  match goal with
  | |- context [fired ?env ?hook ?entry ?w] =>
      replace (fired env hook entry w) with evs by (vm_compute; reflexivity)
  end.

Lemma Fire_dispatch_order_witness :
  (writers mixed_hook ≠ None ∨ hasDefaultWriter mixed_hook = true)
  ∧ Fire test_env mixed_hook error_entry start
    = Fire test_env stream_hook error_entry start
  ∧ Forall (λ ev, is_file_call ev = false) (fired test_env mixed_hook error_entry start).
Proof.
  assert (writers mixed_hook ≠ None ∨ hasDefaultWriter mixed_hook = true) as Hw
    by (left; discriminate).
  destruct (Fire_dispatch_order test_env stream_hook error_entry start) as [_ Hs].
  destruct (Fire_dispatch_order test_env mixed_hook error_entry start) as [_ Hm].
  split; [exact Hw|]. split.
  - apply (proj1 (Hs Hw) error_paths "/tmp/default.log" true).
  - apply (proj2 (Hm Hw)).
Defined.

Lemma Fire_unrouted_level_dropped_witness :
  Fire test_env stream_hook info_entry start = (Done None, after start [EvLock; EvUnlock])
  ∧ Fire test_env file_hook info_entry start = (Done None, after start [EvLock; EvUnlock]).
Proof.
  split.
  - apply (Fire_unrouted_level_dropped test_env stream_hook info_entry start).
    left. repeat split; vm_compute; reflexivity.
  - apply (Fire_unrouted_level_dropped test_env file_hook info_entry start).
    right. repeat split; vm_compute; reflexivity.
Defined.


Lemma Fire_mapped_destination_witness :
  (streams_to test_env piped_hook error_entry start (a_Writer 0)
   ∧ Fire test_env piped_hook error_entry start
     = (Done None,
        after start
          [EvLock;
           EvFormat (formatter piped_hook) (inl (String.list_byte_of_string "down"));
           EvWrite 0 (String.list_byte_of_string "down") None; EvUnlock]))
  ∧ (appends_to test_env scenario_hook error_entry start "/tmp/e.log"
     ∧ Fire test_env scenario_hook error_entry start
       = (Done None,
          after start
            [EvLock; EvMkdirAll "/tmp"; EvOpenFile "/tmp/e.log" None;
             EvFormat (formatter scenario_hook) (inl (String.list_byte_of_string "down"));
             EvFileWrite "/tmp/e.log" (String.list_byte_of_string "down") None;
             EvClose "/tmp/e.log"; EvUnlock]))
  ∧ (streams_to test_env piped_hook info_entry start (a_Writer 1)
     ∧ Fire test_env piped_hook info_entry start
       = (Done (Some "broken pipe"),
          after start
            [EvLock;
             EvFormat (formatter piped_hook) (inl (String.list_byte_of_string "up"));
             EvWrite 1 (String.list_byte_of_string "up") (Some "broken pipe");
             EvUnlock]))
  ∧ (appends_to test_env scenario_hook info_entry start "/tmp/default.log"
     ∧ Fire test_env scenario_hook info_entry start
       = (Done None,
          after start
            [EvLock; EvMkdirAll "/tmp"; EvOpenFile "/tmp/default.log" None;
             EvFormat (formatter scenario_hook) (inl (String.list_byte_of_string "up"));
             EvFileWrite "/tmp/default.log" (String.list_byte_of_string "up") None;
             EvClose "/tmp/default.log"; EvUnlock])).
Proof.
  destruct (Fire_mapped_destination test_env piped_hook error_entry start)
    as (Hs & _ & _ & _).
  destruct (Fire_mapped_destination test_env scenario_hook error_entry start)
    as (_ & Hf & _ & _).
  destruct (Fire_mapped_destination test_env piped_hook info_entry start)
    as (_ & _ & Hds & _).
  destruct (Fire_mapped_destination test_env scenario_hook info_entry start)
    as (_ & _ & _ & Hdf).
  split; [|split; [|split]].
  - destruct (Hs (a_Writer 0)) as (Hto & Hdel & _); [vm_compute; reflexivity|].
    split; [exact Hto|].
    exact (Hdel (String.list_byte_of_string "down") eq_refl).
  - destruct (Hf "/tmp/e.log") as (Hto & [_ Hdel] & _); [vm_compute; reflexivity..|].
    split; [exact Hto|].
    exact (Hdel eq_refl (String.list_byte_of_string "down") eq_refl).
  - destruct Hds as (Hto & Hdel); [vm_compute; reflexivity..|].
    split; [exact Hto|].
    exact (Hdel (String.list_byte_of_string "up") eq_refl).
  - destruct Hdf as (Hto & [_ Hdel]); [vm_compute; reflexivity..|].
    split; [exact Hto|].
    exact (Hdel eq_refl (String.list_byte_of_string "up") eq_refl).
Defined.

Lemma Fire_write_error_witness :
  (Fire test_env piped_hook info_entry start).1 = Done (Some "broken pipe")
  ∧ (Fire test_env full_disk_hook info_entry start).1 = Done None
  ∧ ((∃ path, EvOpenFile path (Some "permission denied")
                ∈ fired test_env (SetDefaultPath file_hook "/root/denied.log") info_entry start)
     ∨ EvFormat (formatter (SetDefaultPath file_hook "/root/denied.log")) (inr "permission denied")
         ∈ fired test_env (SetDefaultPath file_hook "/root/denied.log") info_entry start).
Proof.
  destruct (Fire_write_error test_env piped_hook info_entry start) as (Hs & _ & _).
  destruct (Fire_write_error test_env full_disk_hook info_entry start) as (_ & Hf & _).
  destruct (Fire_write_error test_env (SetDefaultPath file_hook "/root/denied.log")
              info_entry start) as (_ & _ & Ho).
  split; [|split].
  - apply (Hs 1%nat (String.list_byte_of_string "up") (Some "broken pipe")).
    fired_is [EvLock;
              EvFormat (TextFormatter_ptr (Some defaultFormatter))
                (inl (String.list_byte_of_string "up"));
              EvWrite 1 (String.list_byte_of_string "up") (Some "broken pipe");
              EvUnlock].
    find_in.
  - apply (Hf "/mnt/full.log" (String.list_byte_of_string "up")
              (Some "no space left on device")).
    fired_is [EvLock; EvMkdirAll "/mnt"; EvOpenFile "/mnt/full.log" None;
              EvFormat (TextFormatter_ptr (Some defaultFormatter))
                (inl (String.list_byte_of_string "up"));
              EvFileWrite "/mnt/full.log" (String.list_byte_of_string "up")
                (Some "no space left on device");
              EvClose "/mnt/full.log"; EvUnlock].
    find_in.
  - apply Ho; vm_compute; reflexivity.
Defined.

Lemma Fire_format_error_witness :
  ((Fire test_env garbled_stream_hook error_entry start).1 = Done (Some "cannot render")
   ∧ Forall (λ ev, is_write ev = false) (fired test_env garbled_stream_hook error_entry start)
   ∧ EvPrintln (format_failure "cannot render")
       ∈ fired test_env garbled_stream_hook error_entry start
   ∧ other_Formatter 1 = formatter garbled_stream_hook)
  ∧ ((Fire test_env garbled_file_hook error_entry start).1 = Done (Some "cannot render")
     ∧ Forall (λ ev, is_write ev = false) (fired test_env garbled_file_hook error_entry start)
     ∧ EvPrintln (format_failure "cannot render")
         ∈ fired test_env garbled_file_hook error_entry start
     ∧ other_Formatter 1 = formatter garbled_file_hook).
Proof.
  split.
  - apply (Fire_format_error test_env garbled_stream_hook error_entry start
             (other_Formatter 1) "cannot render").
    fired_is [EvLock; EvFormat (other_Formatter 1) (inr "cannot render");
              EvPrintln "failed to generate string for entry: cannot render";
              EvUnlock].
    find_in.
  - apply (Fire_format_error test_env garbled_file_hook error_entry start
             (other_Formatter 1) "cannot render").
    fired_is [EvLock; EvMkdirAll "/tmp"; EvOpenFile "/tmp/e.log" None;
              EvFormat (other_Formatter 1) (inr "cannot render");
              EvPrintln "failed to generate string for entry: cannot render";
              EvClose "/tmp/e.log"; EvUnlock].
    find_in.
Defined.

(** C6, as stated, fails on a nil [*logrus.TextFormatter]: the type
    switch selects the plain-text case and the assignment through the
    nil pointer panics; no flag is set. *)
Lemma SetFormatter_nil_pointer_panics :
  SetFormatter stream_hook (TextFormatter_ptr None) start
  = (Panicked nil_dereference, set_formatter (TextFormatter_ptr None) stream_hook, start).
Proof. reflexivity. Qed.

Lemma SetFormatter_stores_witness :
  (DisableColors (heap start 5%nat) = false
   ∧ ∃ w',
       SetFormatter stream_hook client_formatter start
       = (Done (), set_formatter client_formatter stream_hook, w')
       ∧ formatter (set_formatter client_formatter stream_hook) = client_formatter
       ∧ trace w' = trace start
       ∧ DisableColors (heap w' 5%nat) = true
       ∧ heap w' 5%nat = set_DisableColors true (heap start 5%nat)
       ∧ ∀ q, q ≠ 5%nat → heap w' q = heap start q)
  ∧ SetFormatter file_hook (TextFormatter_ptr None) later
    = (Panicked nil_dereference, set_formatter (TextFormatter_ptr None) file_hook, later).
Proof.
  split; [split; [reflexivity|]|].
  - apply (proj1 (SetFormatter_stores stream_hook client_formatter start)).
    discriminate.
  - apply (proj2 (SetFormatter_stores file_hook (TextFormatter_ptr None) later)).
    reflexivity.
Defined.

Lemma NewHook_table_witness :
  ∃ hook,
    NewHook (lm_PathMap error_paths) nil_Formatter start = (Done hook, start)
    ∧ paths hook = error_paths ∧ writers hook = None.
Proof.
  exact (proj1 (NewHook_table (lm_PathMap error_paths) nil_Formatter start)).
Defined.

Lemma later_reachable : reachable test_env later.
Proof.
  exists start. split; [split; reflexivity|].
  eapply rtc_l; [apply (step_SetFormatter test_env piped_hook client_formatter start)|].
  eapply rtc_l; [apply (step_Fire test_env handed_over.1.2 info_entry)|].
  apply rtc_refl.
Defined.

Lemma NewHook_formatter_witness :
  (later = later
   ∧ formatter file_hook = TextFormatter_ptr (Some defaultFormatter)
   ∧ DisableColors (heap later defaultFormatter) = true)
  ∧ (later = later
     ∧ formatter (set_formatter client_formatter file_hook) = client_formatter).
Proof.
  split.
  - apply (NewHook_formatter test_env (lm_PathMap error_paths) nil_Formatter later
             file_hook later later_reachable).
    vm_compute; reflexivity.
  - apply (NewHook_formatter test_env (lm_PathMap error_paths) client_formatter later
             (set_formatter client_formatter file_hook) later later_reachable).
    vm_compute; reflexivity.
Defined.

(** C10, as stated, fails in file-writing mode when the open fails:
    the hook has no formatter, the Info entry resolves to the default
    path, and [Fire] returns the error of the open; the formatter is
    never reached. *)
Lemma Fire_nil_formatter_open_failure :
  formatter denied_hook = nil_Formatter
  ∧ path_for denied_hook (entry_Level info_entry) = Some "/root/denied.log"
  ∧ Fire test_env denied_hook info_entry start
    = (Done (Some "permission denied"),
       after start
         [EvLock; EvMkdirAll "/root";
          EvOpenFile "/root/denied.log" (Some "permission denied");
          EvPrintln "failed to open logfile: /root/denied.log permission denied";
          EvUnlock])
  ∧ ∀ msg, (Fire test_env denied_hook info_entry start).1 ≠ Panicked msg.
Proof. repeat split. vm_compute. discriminate. Qed.

Lemma Fire_nil_formatter_witness :
  formatter mute_hook = nil_Formatter
  ∧ Fire test_env mute_hook info_entry start
    = (Panicked nil_dereference, after start [EvLock; EvUnlock])
  ∧ (Fire test_env (set_formatter nil_Formatter scenario_hook) info_entry start).1
    = Panicked nil_dereference
  ∧ (Fire test_env denied_hook info_entry start).1 = Done (Some "permission denied").
Proof.
  split; [reflexivity|].
  destruct (Fire_nil_formatter test_env mute_hook info_entry start) as [_ Hm].
  destruct (Fire_nil_formatter test_env (set_formatter nil_Formatter scenario_hook)
              info_entry start) as [_ Hs].
  destruct (Fire_nil_formatter test_env denied_hook info_entry start) as [_ Hd].
  split; [|split].
  - apply (proj1 (Hm eq_refl) (a_Writer 0)); vm_compute; reflexivity.
  - apply (proj2 (Hs eq_refl) "/tmp/default.log"); vm_compute; reflexivity.
  - apply (proj2 (Hd eq_refl) "/root/denied.log"); vm_compute; reflexivity.
Defined.

(** ** Further properties of the package *)

Section Paths.
Variable env : Env.

Lemma path_for_side hook level path :
  path_for hook level = Some path → path_side hook = true.
Proof.
  unfold path_for, path_side, index.
  destruct (paths hook), (hasDefaultPath hook); simpl; try done.
Qed.

Lemma writer_for_side hook level writer :
  writer_for hook level = Some writer → writer_side hook = true.
Proof.
  unfold writer_for, writer_side, index.
  destruct (writers hook), (hasDefaultWriter hook); simpl; try done.
Qed.

(** In stream-writing mode no call goes to the file system. *)
Lemma stream_no_file_call hook entry w :
  writer_side hook = true →
  Forall (λ ev, is_file_call ev = false) (fired env hook entry w).
Proof.
  intros Hw. rewrite fired_stream, ioWrite_run by done.
  run_cases; repeat constructor.
Qed.

Lemma check_app {S} (rule : S → Event → option S) s evs evs' :
  check rule s (evs ++ evs')
  = match check rule s evs with
    | Some s' => check rule s' evs'
    | None => None
    end.
Proof.
  revert s. induction evs as [|ev evs IH]; intros s; simpl; [done|].
  destruct (rule s ev) as [s'|]; simpl; [apply IH|done].
Qed.

Lemma SetFormatter_trace hook f w : trace (SetFormatter hook f w).2 = trace w.
Proof. unfold SetFormatter. simpl. by destruct f as [|[p|]|id]. Qed.

(** A property of traces that holds of the empty trace and survives
    every [Fire] holds in every reachable world. *)
Lemma reachable_trace (P : list Event → Prop) w :
  P [] →
  (∀ hook entry w', P (trace w') → P (trace w' ++ fired env hook entry w')) →
  reachable env w → P (trace w).
Proof.
  intros Hnil Hfire (w0 & [_ Hinit] & Hsteps).
  assert (P (trace w0)) as H0 by by rewrite Hinit.
  clear Hinit. induction Hsteps as [w0|w0 w1 w2 Hstep _ IH]; [done|].
  apply IH. destruct Hstep as [levelMap f w0|hook f w0|hook entry w0|p t w0 Hp].
  - by rewrite NewHook_world.
  - by rewrite SetFormatter_trace.
  - rewrite Fire_after, trace_after. by apply Hfire.
  - done.
Qed.

Lemma fired_mutex hook entry w :
  check mutex_rule false (fired env hook entry w) = Some false.
Proof. fire_cases env hook entry w; done. Qed.

Lemma fired_handle hook entry w :
  check handle_rule None (fired env hook entry w) = Some None.
Proof. fire_cases env hook entry w; simpl; rewrite ?String.eqb_refl; done. Qed.

(** X1. When the file of the resolved path cannot be opened, [Fire]
    returns the error of the open and logs one line naming path and
    error.  The directory was created before the open was tried; the
    formatter is not called, nothing is written and, there being no
    handle, nothing is closed. *)
Theorem Fire_open_failure (hook : lfsHook) (entry : Entry) (w : World)
    (path : string) (err : error) :
  writer_side hook = false →
  path_for hook (entry_Level entry) = Some path →
  open_result env (trace w ++ [EvLock; EvMkdirAll (filepath_Dir env path)]) path
  = Some err →
  Fire env hook entry w
  = (Done (Some err),
     after w [EvLock; EvMkdirAll (filepath_Dir env path);
              EvOpenFile path (Some err);
              EvPrintln (open_failure path err); EvUnlock]).
Proof.
  intros Hw Hf Ho.
  rewrite Fire_file, fileWrite_run, Hf by eauto using path_for_side.
  cbv zeta. by rewrite Ho.
Qed.

(** X3. Within one [Fire] the file handle is used in order: at most one
    file is open, bytes are written only to the file that is open, only
    that file is closed, and no file is left open when [Fire] is left,
    by return or by panic. *)
Theorem Fire_closes_what_it_opens (hook : lfsHook) (entry : Entry) (w : World) :
  check handle_rule None (fired env hook entry w) = Some None
  ∧ (∀ path, EvOpenFile path None ∈ fired env hook entry w →
       EvClose path ∈ fired env hook entry w)
  ∧ (∀ path err, EvOpenFile path (Some err) ∈ fired env hook entry w →
       ∀ p, EvClose p ∉ fired env hook entry w).
Proof.
  split; [apply fired_handle|]. split.
  - intros path. fire_cases env hook entry w; intros H; in_list H; find_in.
  - intros path err.
    fire_cases env hook entry w; intros H; in_list H; intros p Hc; in_list Hc.
Qed.

(** X4. In every world the program can reach the mutex has been used
    correctly: [Lock] was only called on the free mutex, [Unlock] only
    on the held one, every call to formatter, writer, file system and
    logger was made while holding it, and it is free again. *)
Theorem reachable_lock_discipline (w : World) :
  reachable env w → check mutex_rule false (trace w) = Some false.
Proof.
  intros Hr.
  apply (reachable_trace (λ evs, check mutex_rule false evs = Some false) w);
    [done| |done].
  intros hook entry w' IH. rewrite check_app, IH. apply fired_mutex.
Qed.

(** X5. In every world the program can reach no file is open: each
    file that was opened has been closed by the [Fire] that opened it,
    at most one was open at any time, and every write went to the file
    open at that moment. *)
Theorem reachable_handle_discipline (w : World) :
  reachable env w → check handle_rule None (trace w) = Some None.
Proof.
  intros Hr.
  apply (reachable_trace (λ evs, check handle_rule None evs = Some None) w);
    [done| |done].
  intros hook entry w' IH. rewrite check_app, IH. apply fired_handle.
Qed.

(** X6. A write is never made alone.  If [Fire] wrote to a writer, its
    calls were exactly: lock, format, that write, unlock, and the bytes
    written are the bytes the hook's formatter returned.  If it wrote
    to a file, its calls were exactly: lock, create the directory of
    the path, open the path, format, write, close, unlock. *)
Theorem Fire_write_shape (hook : lfsHook) (entry : Entry) (w : World) :
  (∀ id msg res,
     EvWrite id msg res ∈ fired env hook entry w →
     fired env hook entry w
     = [EvLock; EvFormat (formatter hook) (inl msg); EvWrite id msg res; EvUnlock])
  ∧ (∀ path msg res,
     EvFileWrite path msg res ∈ fired env hook entry w →
     fired env hook entry w
     = [EvLock; EvMkdirAll (filepath_Dir env path); EvOpenFile path None;
        EvFormat (formatter hook) (inl msg); EvFileWrite path msg res;
        EvClose path; EvUnlock]).
Proof.
  split.
  - intros id msg res. fire_cases env hook entry w; intros H; in_list H; done.
  - intros path msg res. fire_cases env hook entry w; intros H; in_list H; done.
Qed.

(** X7. One [Fire] calls the formatter at most once, hands bytes to a
    destination at most once, and logs at most one line. *)
Theorem Fire_at_most_once (hook : lfsHook) (entry : Entry) (w : World) :
  length (List.filter is_format (fired env hook entry w)) ≤ 1
  ∧ length (List.filter is_write (fired env hook entry w)) ≤ 1
  ∧ length (List.filter is_println (fired env hook entry w)) ≤ 1.
Proof. fire_cases env hook entry w; simpl; lia. Qed.

(** X8. The standard logger hears of exactly two failures.  A line
    logged by [Fire] is either the report of a formatter error or the
    report of a failed open, and that error is what [Fire] returns.  An
    error of [writer.Write] is returned without a line being logged. *)
Theorem Fire_logs_failures (hook : lfsHook) (entry : Entry) (w : World) :
  (∀ line,
     EvPrintln line ∈ fired env hook entry w →
     (∃ err, line = format_failure err
        ∧ EvFormat (formatter hook) (inr err) ∈ fired env hook entry w
        ∧ (Fire env hook entry w).1 = Done (Some err))
     ∨ (∃ path err, line = open_failure path err
          ∧ EvOpenFile path (Some err) ∈ fired env hook entry w
          ∧ (Fire env hook entry w).1 = Done (Some err)))
  ∧ (∀ id msg res line,
       EvWrite id msg res ∈ fired env hook entry w →
       EvPrintln line ∉ fired env hook entry w).
Proof.
  split.
  - intros line. fire_cases env hook entry w; intros H; in_list H.
    all: first [ left; eexists; split; [reflexivity|]; split; [find_in|done]
               | right; do 2 eexists; split; [reflexivity|]; split; [find_in|done] ].
  - intros id msg res line.
    fire_cases env hook entry w; intros H; in_list H; intros Hl; in_list Hl.
Qed.

End Paths.

Lemma elem_of_range_keys {V} (m : option (gmap Level V)) level :
  level ∈ range_keys m ↔ is_Some (index m level).
Proof.
  destruct m as [t|]; simpl.
  - rewrite list_elem_of_fmap. split.
    + intros [[k v] [-> Hkv%elem_of_map_to_list]]. by exists v.
    + intros [v Hv]. exists (level, v). split; [done|].
      by apply elem_of_map_to_list.
  - split; [intros []%elem_of_nil|intros [? ?]; done].
Qed.

(** X9. The [levels] field of a hook fresh from [NewHook] lists the
    keys of the table [NewHook] was given, each once: a level is listed
    exactly when that table has an entry for it, and without a table, or
    with a nil table, nothing is listed. *)
Theorem NewHook_levels (levelMap : levelMap_arg) (userFormatter : Formatter)
    (w : World) (hook : lfsHook) (w' : World) :
  NewHook levelMap userFormatter w = (Done hook, w') →
  match levelMap with
  | lm_nil => levels hook = []
  | lm_PathMap m =>
      NoDup (levels hook) ∧ ∀ level, level ∈ levels hook ↔ is_Some (index m level)
  | lm_WriterMap m =>
      NoDup (levels hook) ∧ ∀ level, level ∈ levels hook ↔ is_Some (index m level)
  | lm_other _ => False
  end
  ∧ NoDup (levels hook)
  ∧ ∀ level,
      level ∈ levels hook
      ↔ is_Some (index (paths hook) level) ∨ is_Some (index (writers hook) level).
Proof.
  intros HN.
  destruct levelMap as [|m|m|T]; unfold NewHook, panic, mret, M_ret in HN;
    simplify_eq; simpl.
  - split; [done|]. split; [constructor|]. intros level. split.
    + intros []%elem_of_nil.
    + intros [[? ?]|[? ?]]; done.
  - assert (NoDup (range_keys m)) as Hnd
      by (destruct m as [t|]; simpl; [apply NoDup_fst_map_to_list|constructor]).
    split; [split; [done|apply elem_of_range_keys]|]. split; [done|].
    intros level. rewrite elem_of_range_keys. split; [auto|].
    intros [?|[? ?]]; done.
  - assert (NoDup (range_keys m)) as Hnd
      by (destruct m as [t|]; simpl; [apply NoDup_fst_map_to_list|constructor]).
    split; [split; [done|apply elem_of_range_keys]|]. split; [done|].
    intros level. rewrite elem_of_range_keys. split; [auto|].
    intros [[? ?]|?]; done.
Qed.

Section Composition.
Variable env : Env.

(** X10. A hook built without a table, or from a nil map, ignores every
    entry: [Fire] returns nil at once, without taking the lock.  A hook
    built from an empty map that is not nil takes the lock, finds
    nothing, and returns nil as well. *)
Theorem NewHook_without_entries (levelMap : levelMap_arg) (userFormatter : Formatter)
    (w : World) (hook : lfsHook) (w' : World) (entry : Entry) (w1 : World) :
  NewHook levelMap userFormatter w = (Done hook, w') →
  ((levelMap = lm_nil ∨ levelMap = lm_PathMap None ∨ levelMap = lm_WriterMap None) →
   Fire env hook entry w1 = (Done None, w1))
  ∧ ((levelMap = lm_PathMap (Some ∅) ∨ levelMap = lm_WriterMap (Some ∅)) →
     Fire env hook entry w1 = (Done None, after w1 [EvLock; EvUnlock])).
Proof.
  intros HN. split.
  - intros [->|[->| ->]]; unfold NewHook, mret, M_ret in HN; simplify_eq; done.
  - intros [->| ->]; unfold NewHook, mret, M_ret in HN; simplify_eq.
    + rewrite Fire_file, fileWrite_run by done. done.
    + rewrite Fire_stream, ioWrite_run by done. done.
Qed.

(** X11. [SetDefaultWriter] puts any hook into stream-writing mode.
    After it no [Fire] makes a call to the file system, whatever path
    table or default path the hook has.  A level with an entry in the
    writer table still goes to that entry, every other level goes to the
    new default: the bytes the formatter returns are written to that
    writer, whose answer [Fire] returns, and to no other. *)
Theorem SetDefaultWriter_takes_over (hook : lfsHook) (writer : Writer)
    (entry : Entry) (w : World) :
  Forall (λ ev, is_file_call ev = false)
    (fired env (SetDefaultWriter hook writer) entry w)
  ∧ (index (writers hook) (entry_Level entry) = None →
     streams_to env (SetDefaultWriter hook writer) entry w writer
     ∧ stream_delivery env (SetDefaultWriter hook writer) entry w writer)
  ∧ (∀ mapped,
       index (writers hook) (entry_Level entry) = Some mapped →
       streams_to env (SetDefaultWriter hook writer) entry w mapped
       ∧ stream_delivery env (SetDefaultWriter hook writer) entry w mapped).
Proof.
  assert (writer_side (SetDefaultWriter hook writer) = true) as Hw
    by (unfold writer_side; simpl; apply orb_true_r).
  split; [by apply stream_no_file_call|]. split.
  - intros Hi.
    assert (writer_for (SetDefaultWriter hook writer) (entry_Level entry) = Some writer)
      as Hf by (unfold writer_for; simpl; by rewrite Hi).
    split; [by apply writer_for_streams|by apply writer_for_delivers].
  - intros mapped Hi.
    assert (writer_for (SetDefaultWriter hook writer) (entry_Level entry) = Some mapped)
      as Hf by (unfold writer_for; simpl; by rewrite Hi).
    split; [by apply writer_for_streams|by apply writer_for_delivers].
Qed.

(** X12. On a hook without writer table and default writer, after
    [SetDefaultPath] no entry is dropped: every [Fire] creates a
    directory and tries to open a file, the file of the table for a
    level the table has, the new default for every other level. *)
Theorem SetDefaultPath_catches_all (hook : lfsHook) (path : string)
    (entry : Entry) (w : World) :
  writer_side hook = false →
  (∃ p res,
     path_for (SetDefaultPath hook path) (entry_Level entry) = Some p
     ∧ EvMkdirAll (filepath_Dir env p) ∈ fired env (SetDefaultPath hook path) entry w
     ∧ EvOpenFile p res ∈ fired env (SetDefaultPath hook path) entry w)
  ∧ (index (paths hook) (entry_Level entry) = None →
     appends_to env (SetDefaultPath hook path) entry w path)
  ∧ (∀ mapped,
       index (paths hook) (entry_Level entry) = Some mapped →
       appends_to env (SetDefaultPath hook path) entry w mapped).
Proof.
  intros Hw.
  assert (writer_side (SetDefaultPath hook path) = false) as Hw' by done.
  assert (path_side (SetDefaultPath hook path) = true) as Hp
    by (unfold path_side; simpl; apply orb_true_r).
  split; [|split].
  - assert (∃ p, path_for (SetDefaultPath hook path) (entry_Level entry) = Some p)
      as [p Hf].
    { unfold path_for. simpl. destruct (index _ _); eauto. }
    exists p. rewrite fired_file, fileWrite_run, Hf by done.
    run_cases; eexists; (split; [done|]); split; find_in.
  - intros Hi. apply path_for_appends; [done..|].
    unfold path_for. simpl. by rewrite Hi.
  - intros mapped Hi. apply path_for_appends; [done..|].
    unfold path_for. simpl. by rewrite Hi.
Qed.


(** X14. A nil [io.Writer], as table entry or as default, is found out
    only in [Fire].  When the level resolves to it and the formatter, an
    object, returns bytes, [Fire] panics with a nil dereference: the
    entry has been formatted and is lost, nothing is written or logged,
    and the lock is released.  When the formatter returns an error,
    [Fire] logs and returns that error and does not panic. *)
Theorem Fire_stream_panics_on_nil_writer (hook : lfsHook) (entry : Entry) (w : World) :
  writer_for hook (entry_Level entry) = Some nil_Writer →
  usable (formatter hook) = true →
  ∃ r,
    Format env (formatter hook) entry (after w [EvLock])
    = (Done r, after w [EvLock; EvFormat (formatter hook) r])
    ∧ match r with
      | inl msg =>
          Fire env hook entry w
          = (Panicked nil_dereference,
             after w [EvLock; EvFormat (formatter hook) (inl msg); EvUnlock])
      | inr err =>
          Fire env hook entry w
          = (Done (Some err),
             after w [EvLock; EvFormat (formatter hook) (inr err);
                      EvPrintln (format_failure err); EvUnlock])
      end.
Proof.
  intros Hf Hu.
  assert (∃ r, Format env (formatter hook) entry (after w [EvLock])
               = (Done r, after w [EvLock; EvFormat (formatter hook) r])) as [r HF].
  { rewrite Format_run. destruct (formatter hook) as [|[p|]|id]; try done;
      cbv zeta; rewrite after_after; eauto. }
  exists r. split; [done|].
  rewrite Fire_stream, ioWrite_run, Hf by eauto using writer_for_side.
  cbv zeta. rewrite HF. by destruct r.
Qed.

Lemma Format_text_answer p entry w r :
  (Format env (TextFormatter_ptr (Some p)) entry w).1 = Done r →
  r = format_text env (trace w) (heap w p) entry.
Proof. rewrite Format_run. simpl. by intros [= <-]. Qed.

(** With a plain-text formatter whose colors are off in [w], whatever
    [Fire] formats in [w] is formatted with colors off. *)
Lemma Fire_formats_colorless hook entry w p f res :
  formatter hook = TextFormatter_ptr (Some p) →
  DisableColors (heap w p) = true →
  EvFormat f res ∈ fired env hook entry w →
  ∃ past t, DisableColors t = true ∧ res = format_text env past t entry.
Proof.
  intros Hf Hd.
  fire_cases env hook entry w; intros H; in_list H.
  all: match goal with
       | HF : (Format _ _ _ _).1 = Done _ |- _ =>
           rewrite Hf in HF; apply Format_text_answer in HF as ->
       end.
  all: do 2 eexists; split; [|reflexivity]; by rewrite ?heap_after.
Qed.

(** X15. A hook that was built without a formatter, and has not been
    given one since, formats without colors in every world the program
    can reach: whatever the client does to its own formatter objects,
    each call [Fire] makes to the formatter is a call to the plain-text
    formatter with [DisableColors] set. *)
Theorem Fire_default_formatter_colorless (levelMap : levelMap_arg)
    (w0 : World) (built : lfsHook) (w0' : World)
    (hook : lfsHook) (entry : Entry) (w : World) (f : Formatter) (res : bytes + error) :
  NewHook levelMap nil_Formatter w0 = (Done built, w0') →
  formatter hook = formatter built →
  reachable env w →
  EvFormat f res ∈ fired env hook entry w →
  ∃ past t, DisableColors t = true ∧ res = format_text env past t entry.
Proof.
  intros HN Hf Hr. apply (Fire_formats_colorless hook entry w defaultFormatter).
  - rewrite Hf. destruct levelMap; unfold NewHook, panic, mret, M_ret in HN;
      simplify_eq; done.
  - by apply (defaultFormatter_colorless env).
Qed.

(** X16. After [SetFormatter] with a [*logrus.TextFormatter] the hook
    formats without colors, also when the client had switched them on:
    a [Fire] in the world [SetFormatter] leaves calls the formatter with
    [DisableColors] set. *)
Theorem SetFormatter_then_Fire_colorless (hook0 : lfsHook) (p : loc) (w0 : World)
    (entry : Entry) (f : Formatter) (res : bytes + error) :
  let hook := (SetFormatter hook0 (TextFormatter_ptr (Some p)) w0).1.2 in
  let w := (SetFormatter hook0 (TextFormatter_ptr (Some p)) w0).2 in
  EvFormat f res ∈ fired env hook entry w →
  ∃ past t, DisableColors t = true ∧ res = format_text env past t entry.
Proof.
  intros hook w. apply (Fire_formats_colorless hook entry w p); [done|].
  unfold w, SetFormatter. simpl. by rewrite fn_lookup_alter.
Qed.

(** X17. No function of the package switches colors back on: a
    formatter object whose [DisableColors] is set keeps it through
    [NewHook], [SetFormatter] (whatever its argument, also when it
    panics) and [Fire]. *)
Theorem DisableColors_stays (p : loc) (w : World) :
  DisableColors (heap w p) = true →
  (∀ levelMap userFormatter,
     DisableColors (heap (NewHook levelMap userFormatter w).2 p) = true)
  ∧ (∀ hook f, DisableColors (heap (SetFormatter hook f w).2 p) = true)
  ∧ (∀ hook entry, DisableColors (heap (Fire env hook entry w).2 p) = true).
Proof.
  intros Hd. split; [|split].
  - intros levelMap userFormatter. by rewrite NewHook_world.
  - intros hook f. unfold SetFormatter. simpl.
    destruct f as [|[q|]|id]; simpl; try done.
    destruct (decide (q = p)) as [->|Hne].
    + by rewrite fn_lookup_alter.
    + by rewrite fn_lookup_alter_ne.
  - intros hook entry. by rewrite Fire_after, heap_after.
Qed.

End Composition.

(** X18. [SetFormatter] called twice leaves the hook with the second
    formatter, but its mark on the first: both plain-text objects have
    [DisableColors] set afterwards, also the one the hook no longer
    uses, and no other object has changed. *)
Theorem SetFormatter_twice (hook : lfsHook) (p q : loc) (w : World) :
  let first := SetFormatter hook (TextFormatter_ptr (Some p)) w in
  let second := SetFormatter first.1.2 (TextFormatter_ptr (Some q)) first.2 in
  second.1.1 = Done ()
  ∧ formatter second.1.2 = TextFormatter_ptr (Some q)
  ∧ DisableColors (heap second.2 p) = true
  ∧ DisableColors (heap second.2 q) = true
  ∧ ∀ r, r ≠ p → r ≠ q → heap second.2 r = heap w r.
Proof.
  simpl. repeat split.
  - destruct (decide (q = p)) as [->|Hne].
    + by rewrite fn_lookup_alter.
    + by rewrite fn_lookup_alter_ne, fn_lookup_alter.
  - by rewrite fn_lookup_alter.
  - intros r Hp Hq. by rewrite !fn_lookup_alter_ne.
Qed.

(** X2. [Fire] takes the lock exactly when a writer side or a path side
    is configured.  When it does, the lock is taken first and released
    last, on every path through [ioWrite] and [fileWrite], panics
    included, and every other call is made in between. *)
Theorem Fire_under_lock (env : Env) (hook : lfsHook) (entry : Entry) (w : World) :
  check mutex_rule false (fired env hook entry w) = Some false
  ∧ (fired env hook entry w = []
     ↔ writer_side hook = false ∧ path_side hook = false)
  ∧ (fired env hook entry w ≠ [] →
     head (fired env hook entry w) = Some EvLock
     ∧ list.last (fired env hook entry w) = Some EvUnlock).
Proof.
  split; [apply fired_mutex|].
  fire_cases env hook entry w; split; try done; split; try done.
  all: intros [? ?]; done.
Qed.

(** ** The further properties at work on the examples *)

Ltac in_fired := vm_compute; find_in.

Lemma reachable_step env w w' : reachable env w → step env w w' → reachable env w'.
Proof.
  intros (w0 & Hinit & Hsteps) Hstep. exists w0. split; [done|].
  eapply rtc_r; eauto.
Defined.

Lemma later_file_reachable : reachable test_env later_file.
Proof.
  apply (reachable_step test_env later); [apply later_reachable|].
  apply (step_Fire test_env full_disk_hook info_entry later).
Defined.

Lemma Fire_open_failure_witness :
  Fire test_env (SetDefaultPath file_hook "/root/denied.log") info_entry later
  = (Done (Some "permission denied"),
     after later [EvLock; EvMkdirAll "/root";
                  EvOpenFile "/root/denied.log" (Some "permission denied");
                  EvPrintln (open_failure "/root/denied.log" "permission denied");
                  EvUnlock]).
Proof.
  apply (Fire_open_failure test_env (SetDefaultPath file_hook "/root/denied.log")
           info_entry later "/root/denied.log" "permission denied");
    vm_compute; reflexivity.
Defined.

Lemma Fire_under_lock_witness :
  head (fired test_env full_disk_hook info_entry start) = Some EvLock
  ∧ list.last (fired test_env full_disk_hook info_entry start) = Some EvUnlock.
Proof.
  apply (Fire_under_lock test_env full_disk_hook info_entry start).
  vm_compute. discriminate.
Defined.

Lemma Fire_closes_what_it_opens_witness :
  EvClose "/mnt/full.log" ∈ fired test_env full_disk_hook info_entry start
  ∧ EvClose "/root/denied.log"
      ∉ fired test_env (SetDefaultPath file_hook "/root/denied.log") info_entry start.
Proof.
  split.
  - apply (Fire_closes_what_it_opens test_env full_disk_hook info_entry start).
    in_fired.
  - apply (proj2 (proj2 (Fire_closes_what_it_opens test_env
                           (SetDefaultPath file_hook "/root/denied.log") info_entry start))
             "/root/denied.log" "permission denied").
    in_fired.
Defined.

Lemma reachable_lock_discipline_witness :
  check mutex_rule false (trace later_file) = Some false.
Proof.
  apply (reachable_lock_discipline test_env later_file later_file_reachable).
Defined.

Lemma reachable_handle_discipline_witness :
  check handle_rule None (trace later_file) = Some None.
Proof.
  apply (reachable_handle_discipline test_env later_file later_file_reachable).
Defined.

Lemma Fire_write_shape_witness :
  fired test_env piped_hook info_entry start
  = [EvLock;
     EvFormat (formatter piped_hook) (inl (String.list_byte_of_string "up"));
     EvWrite 1 (String.list_byte_of_string "up") (Some "broken pipe");
     EvUnlock]
  ∧ fired test_env full_disk_hook info_entry start
    = [EvLock; EvMkdirAll (filepath_Dir test_env "/mnt/full.log");
       EvOpenFile "/mnt/full.log" None;
       EvFormat (formatter full_disk_hook) (inl (String.list_byte_of_string "up"));
       EvFileWrite "/mnt/full.log" (String.list_byte_of_string "up")
         (Some "no space left on device");
       EvClose "/mnt/full.log"; EvUnlock].
Proof.
  split.
  - apply (proj1 (Fire_write_shape test_env piped_hook info_entry start)).
    in_fired.
  - apply (proj2 (Fire_write_shape test_env full_disk_hook info_entry start)).
    in_fired.
Defined.

Lemma Fire_logs_failures_witness :
  ((∃ err, "failed to generate string for entry: cannot render" = format_failure err
      ∧ EvFormat (formatter garbled_file_hook) (inr err)
          ∈ fired test_env garbled_file_hook error_entry start
      ∧ (Fire test_env garbled_file_hook error_entry start).1 = Done (Some err))
   ∨ (∃ path err,
        "failed to generate string for entry: cannot render" = open_failure path err
        ∧ EvOpenFile path (Some err) ∈ fired test_env garbled_file_hook error_entry start
        ∧ (Fire test_env garbled_file_hook error_entry start).1 = Done (Some err)))
  ∧ EvPrintln "broken pipe" ∉ fired test_env piped_hook info_entry start.
Proof.
  split.
  - apply (proj1 (Fire_logs_failures test_env garbled_file_hook error_entry start)).
    in_fired.
  - apply (proj2 (Fire_logs_failures test_env piped_hook info_entry start)
             1%nat (String.list_byte_of_string "up") (Some "broken pipe")).
    in_fired.
Defined.

Lemma NewHook_levels_witness :
  (NoDup (levels file_hook)
   ∧ ∀ level, level ∈ levels file_hook ↔ is_Some (index error_paths level))
  ∧ NoDup (levels file_hook)
  ∧ ∀ level,
      level ∈ levels file_hook
      ↔ is_Some (index (paths file_hook) level) ∨ is_Some (index (writers file_hook) level).
Proof.
  apply (NewHook_levels (lm_PathMap error_paths) nil_Formatter start file_hook start).
  vm_compute; reflexivity.
Defined.

Lemma NewHook_without_entries_witness :
  Fire test_env (bare_hook (TextFormatter_ptr (Some defaultFormatter))) error_entry later
  = (Done None, later)
  ∧ Fire test_env
      (set_writers (Some ∅) (bare_hook (TextFormatter_ptr (Some defaultFormatter))))
      error_entry later
    = (Done None, after later [EvLock; EvUnlock]).
Proof.
  split.
  - apply (NewHook_without_entries test_env (lm_PathMap None) nil_Formatter start
             (bare_hook (TextFormatter_ptr (Some defaultFormatter))) start
             error_entry later).
    + vm_compute; reflexivity.
    + right; left; reflexivity.
  - apply (NewHook_without_entries test_env (lm_WriterMap (Some ∅)) nil_Formatter start
             (set_writers (Some ∅) (bare_hook (TextFormatter_ptr (Some defaultFormatter))))
             start error_entry later).
    + vm_compute; reflexivity.
    + right; reflexivity.
Defined.

Lemma SetDefaultWriter_takes_over_witness :
  Forall (λ ev, is_file_call ev = false)
    (fired test_env (SetDefaultWriter scenario_hook (a_Writer 0)) info_entry start)
  ∧ (streams_to test_env (SetDefaultWriter scenario_hook (a_Writer 0)) info_entry start
       (a_Writer 0)
     ∧ Fire test_env (SetDefaultWriter scenario_hook (a_Writer 0)) info_entry start
       = (Done None,
          after start
            [EvLock;
             EvFormat (formatter scenario_hook) (inl (String.list_byte_of_string "up"));
             EvWrite 0 (String.list_byte_of_string "up") None; EvUnlock]))
  ∧ (streams_to test_env (SetDefaultWriter stream_hook (a_Writer 1)) error_entry start
       (a_Writer 0)
     ∧ Fire test_env (SetDefaultWriter stream_hook (a_Writer 1)) error_entry start
       = (Done None,
          after start
            [EvLock;
             EvFormat (formatter stream_hook) (inl (String.list_byte_of_string "down"));
             EvWrite 0 (String.list_byte_of_string "down") None; EvUnlock]))
  ∧ Fire test_env nil_buffer_hook info_entry start
    = (Panicked nil_dereference,
       after start
         [EvLock;
          EvFormat (formatter scenario_hook) (inl (String.list_byte_of_string "up"));
          EvWritePanic 2 (String.list_byte_of_string "up") nil_dereference; EvUnlock]).
Proof.
  destruct (SetDefaultWriter_takes_over test_env scenario_hook (a_Writer 0)
              info_entry start) as (Hn & Hd & _).
  destruct (SetDefaultWriter_takes_over test_env stream_hook (a_Writer 1)
              error_entry start) as (_ & _ & Hm).
  destruct (SetDefaultWriter_takes_over test_env scenario_hook (a_Writer 2)
              info_entry start) as (_ & Hp & _).
  split; [exact Hn|]. split; [|split].
  - destruct Hd as [Hto Hdel]; [vm_compute; reflexivity|].
    split; [exact Hto|].
    exact (Hdel (String.list_byte_of_string "up") eq_refl).
  - destruct (Hm (a_Writer 0)) as [Hto Hdel]; [vm_compute; reflexivity|].
    split; [exact Hto|].
    exact (Hdel (String.list_byte_of_string "down") eq_refl).
  - destruct Hp as [_ Hdel]; [vm_compute; reflexivity|].
    exact (Hdel (String.list_byte_of_string "up") eq_refl).
Defined.

Lemma SetDefaultPath_catches_all_witness :
  appends_to test_env (SetDefaultPath file_hook "/tmp/default.log") info_entry start
    "/tmp/default.log"
  ∧ appends_to test_env (SetDefaultPath file_hook "/tmp/default.log") error_entry start
      "/tmp/e.log".
Proof.
  split.
  - apply (proj1 (proj2 (SetDefaultPath_catches_all test_env file_hook "/tmp/default.log"
                           info_entry start eq_refl))).
    vm_compute; reflexivity.
  - apply (proj2 (proj2 (SetDefaultPath_catches_all test_env file_hook "/tmp/default.log"
                           error_entry start eq_refl)) "/tmp/e.log").
    vm_compute; reflexivity.
Defined.


Lemma Fire_stream_panics_on_nil_writer_witness :
  (∃ r,
     Format test_env (formatter nil_writer_hook) error_entry (after start [EvLock])
     = (Done r, after start [EvLock; EvFormat (formatter nil_writer_hook) r])
     ∧ match r with
       | inl msg =>
           Fire test_env nil_writer_hook error_entry start
           = (Panicked nil_dereference,
              after start [EvLock; EvFormat (formatter nil_writer_hook) (inl msg);
                           EvUnlock])
       | inr err =>
           Fire test_env nil_writer_hook error_entry start
           = (Done (Some err),
              after start [EvLock; EvFormat (formatter nil_writer_hook) (inr err);
                           EvPrintln (format_failure err); EvUnlock])
       end)
  ∧ (Fire test_env (SetDefaultWriter stream_hook nil_Writer) info_entry start).1
    = Panicked nil_dereference
  ∧ (Fire test_env (set_formatter (other_Formatter 1) nil_writer_hook)
       error_entry start).1
    = Done (Some "cannot render").
Proof.
  split; [|split].
  - apply (Fire_stream_panics_on_nil_writer test_env nil_writer_hook error_entry start);
      vm_compute; reflexivity.
  - destruct (Fire_stream_panics_on_nil_writer test_env
                (SetDefaultWriter stream_hook nil_Writer) info_entry start)
      as (r & HF & Hr); [vm_compute; reflexivity..|].
    vm_compute in HF. simplify_eq. by rewrite Hr.
  - destruct (Fire_stream_panics_on_nil_writer test_env
                (set_formatter (other_Formatter 1) nil_writer_hook) error_entry start)
      as (r & HF & Hr); [vm_compute; reflexivity..|].
    vm_compute in HF. simplify_eq. by rewrite Hr.
Defined.

Lemma Fire_default_formatter_colorless_witness :
  ∃ past t,
    DisableColors t = true
    ∧ inl (String.list_byte_of_string "up") = format_text test_env past t info_entry.
Proof.
  apply (Fire_default_formatter_colorless test_env (lm_PathMap error_paths) start
           file_hook start scenario_hook info_entry later_file
           (TextFormatter_ptr (Some defaultFormatter))
           (inl (String.list_byte_of_string "up"))).
  - vm_compute; reflexivity.
  - reflexivity.
  - apply later_file_reachable.
  - in_fired.
Defined.

Lemma SetFormatter_then_Fire_colorless_witness :
  DisableColors (heap start 5%nat) = false
  ∧ ∃ past t,
      DisableColors t = true
      ∧ inl (String.list_byte_of_string "down") = format_text test_env past t error_entry.
Proof.
  split; [reflexivity|].
  apply (SetFormatter_then_Fire_colorless test_env stream_hook 5%nat start error_entry
           client_formatter (inl (String.list_byte_of_string "down"))).
  in_fired.
Defined.

Lemma DisableColors_stays_witness :
  DisableColors (heap (SetFormatter file_hook second_formatter later).2 5%nat) = true
  ∧ DisableColors (heap (Fire test_env scenario_hook info_entry later).2 5%nat) = true.
Proof.
  destruct (DisableColors_stays test_env 5%nat later) as (_ & Hs & Hf).
  - vm_compute; reflexivity.
  - split; [apply Hs|apply Hf].
Defined.

Lemma SetFormatter_twice_witness :
  heap (SetFormatter (SetFormatter stream_hook client_formatter start).1.2
          second_formatter (SetFormatter stream_hook client_formatter start).2).2 9%nat
  = heap start 9%nat.
Proof.
  apply (SetFormatter_twice stream_hook 5%nat 7%nat start); discriminate.
Defined.
